(** * The upload broker of [lambda/index.py]

    A shallow embedding of the four functions of [src/lambda/index.py]
    ([authenticate_request], [generate_presigned_url], [confirm_upload] and
    [handler]) together with the pieces of the Python runtime they rely on,
    followed by the properties the specification states about them.

    Python values are the JSON-shaped values the handler can receive; a Python
    [str] is its sequence of code points; a raised exception is an explicit
    [Raise] result; the external collaborators (process environment, secret
    store, object store, clock, random source) and the opaque library
    functions ([json], [base64], [repr]) are fields of two records.  What the
    source [print]s goes to the log, not into a response, and is left out. *)

From Stdlib Require Import ZArith List Bool String Ascii Lia.
Import ListNotations.
Local Open Scope Z_scope.
Set Warnings "-register-all".

(** ** Python strings and bytes *)

(** A [str] is a sequence of code points, a [bytes] a sequence of octets. *)
Definition pystr := list Z.
Definition pybytes := list Z.

(** An ASCII literal of the source. *)
Definition str (s : string) : pystr :=
  map (fun a => Z.of_N (N_of_ascii a)) (list_ascii_of_string s).

Arguments str : simpl never.

Fixpoint pystr_eqb (a b : pystr) : bool :=
  match a, b with
  | [], [] => true
  | x :: a', y :: b' => (x =? y) && pystr_eqb a' b'
  | _, _ => false
  end.

(** [s.startswith(p)] *)
Fixpoint startswith (s p : pystr) {struct p} : bool :=
  match p with
  | [] => true
  | y :: p' =>
      match s with
      | x :: s' => (x =? y) && startswith s' p'
      | [] => false
      end
  end.

(** [s[n:]] for a non-negative literal [n] *)
Definition slice_from (n : nat) (s : pystr) : pystr := skipn n s.

(** [s[:n]] for a non-negative literal [n] *)
Definition slice_to (n : nat) (s : pystr) : pystr := firstn n s.

(** Code points and octets as Python constrains them. *)
Definition code_point (c : Z) : Prop := 0 <= c < 1114112.
Definition surrogate (c : Z) : bool := (55296 <=? c) && (c <=? 57343).
Definition scalar_value (c : Z) : Prop := code_point c /\ surrogate c = false.
Definition octet (b : Z) : Prop := 0 <= b < 256.

(** ** Exceptions *)

Inductive exn_class :=
| AttributeError | TypeError | KeyError | ValueError | RecursionError
| JSONDecodeError | UnicodeEncodeError | UnicodeDecodeError
| ParamValidationError | ClientError | NoSuchKey
| OtherException.

(** An exception instance: its class and the text [str(e)] gives. *)
Record exn := { exn_cls : exn_class; exn_text : pystr }.

Inductive result (A : Type) :=
| Ok (a : A)
| Raise (e : exn).
Arguments Ok {A} a.
Arguments Raise {A} e.

Definition bind {A B} (m : result A) (k : A -> result B) : result B :=
  match m with
  | Ok a => k a
  | Raise e => Raise e
  end.

Notation "x <- m ;; k" := (bind m (fun x => k))
  (at level 61, m at next level, right associativity).

Definition raise {A} (c : exn_class) (text : string) : result A :=
  Raise {| exn_cls := c; exn_text := str text |}.

Scheme Equality for exn_class.

(** [except c:] catches the instances of class [c]; the two classes the
    source names in an [except] clause have no subclass among the others. *)
Definition is_class (c : exn_class) (e : exn) : bool :=
  exn_class_beq c (exn_cls e).

(** ** Python values *)

(** The values JSON decoding produces.  A [float] is kept as its IEEE-754
    binary64 bit pattern; a [dict] as its items in insertion order. *)
Inductive pyval :=
| PNone
| PBool (b : bool)
| PInt (n : Z)
| PFloat (bits : Z)
| PStr (s : pystr)
| PList (l : list pyval)
| PDict (d : list (pystr * pyval)).

Definition dict (V : Type) := list (pystr * V).

Fixpoint dict_get {V} (d : dict V) (k : pystr) : option V :=
  match d with
  | [] => None
  | (k', v) :: d' => if pystr_eqb k' k then Some v else dict_get d' k
  end.

(** [d[k] = v] on a dict: the value is replaced in place, or appended. *)
Fixpoint dict_set {V} (d : dict V) (k : pystr) (v : V) : dict V :=
  match d with
  | [] => [(k, v)]
  | (k', v') :: d' =>
      if pystr_eqb k' k then (k', v) :: d' else (k', v') :: dict_set d' k v
  end.

(** Truth value testing ([bool(x)], [not x], [x or y]). *)
Definition truthy (v : pyval) : bool :=
  match v with
  | PNone => false
  | PBool b => b
  | PInt n => negb (n =? 0)
  | PFloat bits => negb (bits mod 9223372036854775808 =? 0)
  | PStr s => match s with [] => false | _ => true end
  | PList l => match l with [] => false | _ => true end
  | PDict d => match d with [] => false | _ => true end
  end.

(** [v == s] for a [str] [s]: only an equal [str] compares equal. *)
Definition eq_str (v : pyval) (s : pystr) : bool :=
  match v with
  | PStr t => pystr_eqb t s
  | _ => false
  end.

(** [o.get(k, default)]: a [dict] method; any other JSON value has no
    attribute [get]. *)
Definition py_get (o : pyval) (k : pystr) (default : pyval) : result pyval :=
  match o with
  | PDict d => Ok (match dict_get d k with Some v => v | None => default end)
  | _ => raise AttributeError "object has no attribute 'get'"
  end.

(** [o[k]] for a [str] key [k]. *)
Definition py_getitem (o : pyval) (k : pystr) : result pyval :=
  match o with
  | PDict d => match dict_get d k with
               | Some v => Ok v
               | None => Raise {| exn_cls := KeyError; exn_text := k |}
               end
  | _ => raise TypeError "indices must be integers or object is not subscriptable"
  end.

(** ** UTF-8 ([str.encode('utf-8')], [bytes.decode('utf-8', errors)]) *)

(** One code point to its octets; a surrogate cannot be encoded. *)
Definition utf8_encode_cp (c : Z) : option pybytes :=
  if c <? 0 then None
  else if c <? 128 then Some [c]
  else if c <? 2048 then
    Some [Z.lor 192 (Z.shiftr c 6); Z.lor 128 (Z.land c 63)]
  else if c <? 65536 then
    if surrogate c then None
    else Some [Z.lor 224 (Z.shiftr c 12);
               Z.lor 128 (Z.land (Z.shiftr c 6) 63);
               Z.lor 128 (Z.land c 63)]
  else if c <? 1114112 then
    Some [Z.lor 240 (Z.shiftr c 18);
          Z.lor 128 (Z.land (Z.shiftr c 12) 63);
          Z.lor 128 (Z.land (Z.shiftr c 6) 63);
          Z.lor 128 (Z.land c 63)]
  else None.

Fixpoint utf8_encode (s : pystr) : result pybytes :=
  match s with
  | [] => Ok []
  | c :: s' =>
      match utf8_encode_cp c with
      | Some bs => rest <- utf8_encode s' ;; Ok (bs ++ rest)
      | None => raise UnicodeEncodeError "'utf-8' codec can't encode character"
      end
  end.

Definition is_continuation (b : Z) : bool := (128 <=? b) && (b <? 192).

(** The decoder's scan: [Some c] for each well-formed sequence, [None] for
    each maximal ill-formed part, after which the scan resumes at the octet
    that broke the sequence. *)
Fixpoint utf8_scan (bs : pybytes) : list (option Z) :=
  match bs with
  | [] => []
  | ch :: r0 =>
      if ch <? 128 then Some ch :: utf8_scan r0
      else if ch <? 194 then None :: utf8_scan r0
      else if ch <? 224 then
        match r0 with
        | [] => [None]
        | ch2 :: r1 =>
            if is_continuation ch2
            then Some (ch * 64 + ch2 - 12416) :: utf8_scan r1
            else None :: utf8_scan r0
        end
      else if ch <? 240 then
        match r0 with
        | [] => [None]
        | ch2 :: r1 =>
            if negb (is_continuation ch2)
               || (if ch2 <? 160 then ch =? 224 else ch =? 237)
            then None :: utf8_scan r0
            else
              match r1 with
              | [] => [None]
              | ch3 :: r2 =>
                  if is_continuation ch3
                  then Some (ch * 4096 + ch2 * 64 + ch3 - 925824)
                         :: utf8_scan r2
                  else None :: utf8_scan r1
              end
        end
      else if ch <? 245 then
        match r0 with
        | [] => [None]
        | ch2 :: r1 =>
            if negb (is_continuation ch2)
               || (if ch2 <? 144 then ch =? 240 else ch =? 244)
            then None :: utf8_scan r0
            else
              match r1 with
              | [] => [None]
              | ch3 :: r2 =>
                  if negb (is_continuation ch3) then None :: utf8_scan r1
                  else
                    match r2 with
                    | [] => [None]
                    | ch4 :: r3 =>
                        if is_continuation ch4
                        then Some (ch * 262144 + ch2 * 4096 + ch3 * 64 + ch4
                                   - 63447168) :: utf8_scan r3
                        else None :: utf8_scan r2
                    end
              end
        end
      else None :: utf8_scan r0
  end.

(** [errors='replace']: U+FFFD for each ill-formed part. *)
Definition utf8_decode_replace (bs : pybytes) : pystr :=
  map (fun o => match o with Some c => c | None => 65533 end) (utf8_scan bs).

(** [errors='strict'] *)
Fixpoint all_decoded (l : list (option Z)) : option pystr :=
  match l with
  | [] => Some []
  | Some c :: l' => option_map (cons c) (all_decoded l')
  | None :: _ => None
  end.

Definition utf8_decode_strict (bs : pybytes) : result pystr :=
  match all_decoded (utf8_scan bs) with
  | Some s => Ok s
  | None => raise UnicodeDecodeError "'utf-8' codec can't decode byte"
  end.

(** ** [urllib.parse.quote] and [urllib.parse.unquote] *)

Definition is_upper (b : Z) : bool := (65 <=? b) && (b <=? 90).
Definition is_lower (b : Z) : bool := (97 <=? b) && (b <=? 122).
Definition is_digit (b : Z) : bool := (48 <=? b) && (b <=? 57).

(** Letters, digits and [_.-~] are never quoted. *)
Definition always_safe (b : Z) : bool :=
  is_upper b || is_lower b || is_digit b
  || (b =? 95) || (b =? 46) || (b =? 45) || (b =? 126).

(** The octets left unquoted: the always-safe ones and the ASCII characters
    of the [safe] argument. *)
Definition is_safe (safe : pystr) (b : Z) : bool :=
  always_safe b || ((b <? 128) && existsb (Z.eqb b) safe).

Definition hex_upper (d : Z) : Z := if d <? 10 then 48 + d else 55 + d.
Definition hex_lower (d : Z) : Z := if d <? 10 then 48 + d else 87 + d.

Definition quote_byte (safe : pystr) (b : Z) : pystr :=
  if is_safe safe b then [b]
  else [37; hex_upper (b / 16); hex_upper (b mod 16)].

Definition quote_from_bytes (bs : pybytes) (safe : pystr) : pystr :=
  flat_map (quote_byte safe) bs.

(** [quote(string, safe=safe)] *)
Definition quote (string : pyval) (safe : pystr) : result pystr :=
  match string with
  | PStr s =>
      match s with
      | [] => Ok []
      | _ => bs <- utf8_encode s ;; Ok (quote_from_bytes bs safe)
      end
  | _ => raise TypeError "quote_from_bytes() expected bytes"
  end.

Definition hexval (c : Z) : option Z :=
  if is_digit c then Some (c - 48)
  else if (65 <=? c) && (c <=? 70) then Some (c - 55)
  else if (97 <=? c) && (c <=? 102) then Some (c - 87)
  else None.

(** [unquote_to_bytes] on an ASCII chunk: [%XX] with two hex digits becomes
    one octet, any other [%] stays. *)
Fixpoint unquote_to_bytes (s : pystr) : pybytes :=
  match s with
  | [] => []
  | c :: rest =>
      if c =? 37 then
        match rest with
        | h1 :: h2 :: rest' =>
            match hexval h1, hexval h2 with
            | Some a, Some b => (a * 16 + b) :: unquote_to_bytes rest'
            | _, _ => 37 :: unquote_to_bytes rest
            end
        | _ => 37 :: unquote_to_bytes rest
        end
      else c :: unquote_to_bytes rest
  end.

Definition unquote_chunk (rev_chunk : pystr) : pystr :=
  utf8_decode_replace (unquote_to_bytes (rev rev_chunk)).

(** The string is cut into maximal ASCII chunks, each unquoted and decoded
    with [errors='replace']; the characters between them are kept.
    [rev_chunk] is the ASCII chunk read so far, last character first. *)
Fixpoint unquote_parts (s : pystr) (rev_chunk : pystr) : pystr :=
  match s with
  | [] => unquote_chunk rev_chunk
  | c :: s' =>
      if (0 <=? c) && (c <? 128) then unquote_parts s' (c :: rev_chunk)
      else unquote_chunk rev_chunk ++ c :: unquote_parts s' []
  end.

(** [unquote(string)]; a value that is not a [str] raises. *)
Definition unquote (string : pyval) : result pystr :=
  match string with
  | PStr s =>
      if negb (existsb (Z.eqb 37) s) then Ok s else Ok (unquote_parts s [])
  | PList l =>
      if existsb (fun v => eq_str v [37]) l
      then raise TypeError "expected string or bytes-like object"
      else raise AttributeError "'list' object has no attribute 'split'"
  | PDict d =>
      match dict_get d [37] with
      | Some _ => raise TypeError "expected string or bytes-like object"
      | None => raise AttributeError "'dict' object has no attribute 'split'"
      end
  | _ => raise TypeError "argument is not iterable"
  end.

(** ** Number formatting, [datetime] and [uuid] *)

(** [width] decimal digits, zero-padded ([%02d], [%04d], [%06d]). *)
Fixpoint zfill_dec (width : nat) (n : Z) : pystr :=
  match width with
  | O => []
  | S w => zfill_dec w (n / 10) ++ [48 + n mod 10]
  end.

(** [width] lower-case hexadecimal digits, zero-padded ([%032x]). *)
Fixpoint zfill_hex (width : nat) (n : Z) : pystr :=
  match width with
  | O => []
  | S w => zfill_hex w (n / 16) ++ [hex_lower (n mod 16)]
  end.

(** A [datetime]; [tz_minutes] is the UTC offset of an aware value and
    [None] for a naive one, as [datetime.now()] returns. *)
Record datetime := {
  year : Z; month : Z; day : Z;
  hour : Z; minute : Z; second : Z; microsecond : Z;
  tz_minutes : option Z
}.

(** The ranges the constructor of [datetime] enforces on the fields
    ([MINYEAR] is 1 and [MAXYEAR] 9999). *)
Definition datetime_fields (dt : datetime) : Prop :=
  1 <= year dt <= 9999 /\ 1 <= month dt <= 12 /\ 1 <= day dt <= 31
  /\ 0 <= hour dt < 24 /\ 0 <= minute dt < 60 /\ 0 <= second dt < 60
  /\ 0 <= microsecond dt < 1000000.

(** [%Y] of [strftime] for the years of a [datetime], 1 to 9999.  CPython
    leaves it to the C library: the year in decimal, not padded, so that a
    year before 1000 has fewer than four digits (later CPython versions and
    other C libraries pad it; from year 1000 on all agree). *)
Definition strftime_Y (y : Z) : pystr :=
  if y <? 10 then zfill_dec 1 y
  else if y <? 100 then zfill_dec 2 y
  else if y <? 1000 then zfill_dec 3 y
  else zfill_dec 4 y.

(** [dt.strftime('%Y%m%d_%H%M%S')] *)
Definition strftime_Ymd_HMS (dt : datetime) : pystr :=
  strftime_Y (year dt) ++ zfill_dec 2 (month dt) ++ zfill_dec 2 (day dt)
  ++ str "_"
  ++ zfill_dec 2 (hour dt) ++ zfill_dec 2 (minute dt) ++ zfill_dec 2 (second dt).

(** [dt.isoformat()], which formats the year itself, with [%04d] *)
Definition isoformat (dt : datetime) : pystr :=
  zfill_dec 4 (year dt) ++ str "-" ++ zfill_dec 2 (month dt) ++ str "-"
  ++ zfill_dec 2 (day dt) ++ str "T"
  ++ zfill_dec 2 (hour dt) ++ str ":" ++ zfill_dec 2 (minute dt) ++ str ":"
  ++ zfill_dec 2 (second dt)
  ++ (if microsecond dt =? 0 then [] else str "." ++ zfill_dec 6 (microsecond dt))
  ++ match tz_minutes dt with
     | None => []
     | Some m =>
         (if m <? 0 then str "-" else str "+")
         ++ zfill_dec 2 (Z.abs m / 60) ++ str ":" ++ zfill_dec 2 (Z.abs m mod 60)
     end.

(** [uuid.uuid4()]: 16 random octets read as a 128-bit integer, with the
    variant and version bits set. *)
Definition uuid4 (random : Z) : Z :=
  let int := random mod 2 ^ 128 in
  let int := Z.land int (Z.lnot (Z.shiftl 0xc000 48)) in
  let int := Z.lor int (Z.shiftl 0x8000 48) in
  let int := Z.land int (Z.lnot (Z.shiftl 0xf000 64)) in
  Z.lor int (Z.shiftl 4 76).

(** [str(u)] for a UUID [u] *)
Definition uuid_str (int : Z) : pystr :=
  let hex := zfill_hex 32 int in
  firstn 8 hex ++ str "-" ++ firstn 4 (skipn 8 hex) ++ str "-"
  ++ firstn 4 (skipn 12 hex) ++ str "-" ++ firstn 4 (skipn 16 hex) ++ str "-"
  ++ skipn 20 hex.

(** ** The runtime library and the outside world *)

(** Library functions whose results the source only passes on. *)
Record pylib := {
  (** [json.loads] on a [str] *)
  json_loads : pystr -> result pyval;
  (** [json.dumps] *)
  json_dumps : pyval -> pystr;
  (** [base64.b64decode] *)
  b64decode : pyval -> result pybytes;
  (** how an f-string renders a value that is not a [str] *)
  py_format : pyval -> pystr
}.

(** What [head_object] returns: the response keys the source reads, [None]
    for a key the response lacks. *)
Record head_output := {
  Metadata : option pyval;
  ContentLength : option pyval;
  ContentType : option pyval;
  LastModified : option datetime
}.

Record world := {
  (** [os.environ.get] *)
  environ : pystr -> option pystr;
  (** the value of the [n]-th call of [datetime.now()] in the invocation *)
  now : nat -> datetime;
  (** [os.urandom(16)], big-endian *)
  urandom16 : Z;
  (** [boto3.client(service)] *)
  boto3_client : pystr -> result unit;
  (** [secrets_client.get_secret_value(SecretId=...)] *)
  get_secret_value : pystr -> result pyval;
  (** [s3_client.generate_presigned_post(Bucket, Key, Fields, Conditions,
      ExpiresIn)] *)
  s3_generate_presigned_post :
    pystr -> pystr -> pyval -> pyval -> Z -> result pyval;
  (** [s3_client.generate_presigned_url(ClientMethod, Params, ExpiresIn)] *)
  s3_generate_presigned_url : pystr -> pyval -> Z -> result pyval;
  (** [s3_client.head_object(Bucket, Key)] *)
  s3_head_object : pystr -> pystr -> result head_output
}.

(** The dict the handler returns. *)
Record response := {
  statusCode : Z;
  headers : dict pystr;
  body : pystr
}.

(** The two shapes of the pair [authenticate_request] returns:
    [(True, None)] and [(False, error_response)]. *)
Inductive auth_result :=
| Authenticated
| Rejected (auth_error : response).

(** [try: body except cls: handler] *)
Definition try_except {A} (m : result A) (cls : exn_class) (h : result A)
  : result A :=
  match m with
  | Ok a => Ok a
  | Raise e => if is_class cls e then h else Raise e
  end.

(** [try: body except Exception: handler] *)
Definition try_except_Exception {A} (m : result A) (h : exn -> A) : A :=
  match m with
  | Ok a => a
  | Raise e => h e
  end.

(** [json.loads(v)]: a value that is not a [str] is refused. *)
Definition json_loads_value (L : pylib) (v : pyval) : result pyval :=
  match v with
  | PStr s => json_loads L s
  | _ => raise TypeError "the JSON object must be str, bytes or bytearray"
  end.

(** How an f-string renders a value. *)
Definition format_value (L : pylib) (v : pyval) : pystr :=
  match v with
  | PStr s => s
  | _ => py_format L v
  end.

(** [not v] for what [os.environ.get] returns. *)
Definition env_missing (v : option pystr) : bool :=
  match v with
  | Some (_ :: _) => false
  | _ => true
  end.

Definition env_value (v : option pystr) : pystr :=
  match v with
  | Some s => s
  | None => []
  end.

(** ** [lambda/index.py] *)

Section Index.

Variable L : pylib.
Variable w : world.

(** [authenticate_request(event, secret_arn)], lines 8-89. *)
Definition authenticate_request (event : pyval) (secret_arn : pystr)
  : result auth_result :=
  headers <- py_get event (str "headers") (PDict []) ;;
  auth_header <-
    (a <- py_get headers (str "Authorization") PNone ;;
     if truthy a then Ok a else py_get headers (str "authorization") PNone) ;;
  if negb (truthy auth_header) then
    Ok (Rejected {|
      statusCode := 401;
      headers := [(str "Content-Type", str "application/json");
                  (str "Access-Control-Allow-Origin", str "*")];
      body := json_dumps L (PDict
        [(str "error", PStr (str "Missing Authorization header"))]) |})
  else
  match auth_header with
  | PStr auth_header =>
    if negb (startswith auth_header (str "Bearer ")) then
      Ok (Rejected {|
        statusCode := 401;
        headers := [(str "Content-Type", str "application/json");
                    (str "Access-Control-Allow-Origin", str "*")];
        body := json_dumps L (PDict
          [(str "error", PStr (str
             "Invalid Authorization header format. Expected: Bearer <token>"))]) |})
    else
    let provided_token := slice_from 7 auth_header in
    _ <- boto3_client w (str "secretsmanager") ;;
    let attempt : result (response + pyval) :=
      secret_response <- get_secret_value w secret_arn ;;
      secret_string <- py_getitem secret_response (str "SecretString") ;;
      secret_data <- json_loads_value L secret_string ;;
      expected_secret <- py_get secret_data (str "shared_secret") PNone ;;
      if negb (truthy expected_secret) then
        Ok (inl {|
          statusCode := 500;
          headers := [(str "Content-Type", str "application/json");
                      (str "Access-Control-Allow-Origin", str "*")];
          body := json_dumps L (PDict
            [(str "error",
              PStr (str "Shared secret not found in Secrets Manager"))]) |})
      else Ok (inr expected_secret) in
    match
      try_except_Exception attempt (fun e => inl {|
        statusCode := 500;
        headers := [(str "Content-Type", str "application/json");
                    (str "Access-Control-Allow-Origin", str "*")];
        body := json_dumps L (PDict
          [(str "error",
            PStr (str "Failed to retrieve authentication secret"))]) |})
    with
    | inl error_response => Ok (Rejected error_response)
    | inr expected_secret =>
      if negb (eq_str expected_secret provided_token) then
        Ok (Rejected {|
          statusCode := 401;
          headers := [(str "Content-Type", str "application/json");
                      (str "Access-Control-Allow-Origin", str "*")];
          body := json_dumps L (PDict
            [(str "error", PStr (str "Invalid authentication token"))]) |})
      else Ok Authenticated
    end
  | _ => raise AttributeError "object has no attribute 'startswith'"
  end.

(** Lines 116-119 and, again, 272-275: the body, base64-decoded when the
    event says so. *)
Definition decode_body (event : pyval) : result pyval :=
  body <- py_get event (str "body") (PStr []) ;;
  flag <- py_get event (str "isBase64Encoded") (PBool false) ;;
  if truthy flag then
    bs <- b64decode L body ;;
    s <- utf8_decode_strict bs ;;
    Ok (PStr s)
  else Ok body.

(** Lines 122 and 278: [json.loads(body) if body else {}]. *)
Definition load_json (body : pyval) : result pyval :=
  if truthy body then json_loads_value L body else Ok (PDict []).

(** [generate_presigned_url(event, context)], lines 91-245. *)
Definition generate_presigned_url (event : pyval) : result response :=
  let bucket_name := environ w (str "BUCKET_NAME") in
  let secret_arn := environ w (str "SECRET_ARN") in
  if env_missing bucket_name || env_missing secret_arn then
    Ok {|
      statusCode := 500;
      headers := [(str "Content-Type", str "application/json");
                  (str "Access-Control-Allow-Origin", str "*")];
      body := json_dumps L (PDict
        [(str "error", PStr (str "Missing required environment variables"))]) |}
  else
  let bucket_name := env_value bucket_name in
  auth <- authenticate_request event (env_value secret_arn) ;;
  match auth with
  | Rejected auth_error => Ok auth_error
  | Authenticated =>
  body <- decode_body event ;;
  parsed <-
    try_except (request_data <- load_json body ;; Ok (inr request_data))
      JSONDecodeError
      (Ok (inl {|
        statusCode := 400;
        headers := [(str "Content-Type", str "application/json");
                    (str "Access-Control-Allow-Origin", str "*")];
        body := json_dumps L (PDict
          [(str "error", PStr (str "Invalid JSON in request body"))]) |})) ;;
  match parsed with
  | inl error_response => Ok error_response
  | inr request_data =>
  file_name <- py_get request_data (str "file_name") PNone ;;
  content_type <- py_get request_data (str "content_type")
                    (PStr (str "application/octet-stream")) ;;
  file_size <- py_get request_data (str "file_size") PNone ;;
  if negb (truthy file_name) then
    Ok {|
      statusCode := 400;
      headers := [(str "Content-Type", str "application/json");
                  (str "Access-Control-Allow-Origin", str "*")];
      body := json_dumps L (PDict
        [(str "error", PStr (str "Missing required field: file_name"))]) |}
  else
  let timestamp := strftime_Ymd_HMS (now w 0) in
  let unique_id := slice_to 8 (uuid_str (uuid4 (urandom16 w))) in
  let file_key :=
    str "uploads/" ++ timestamp ++ str "_" ++ unique_id ++ str "_"
    ++ format_value L file_name in
  _ <- boto3_client w (str "s3") ;;
  let attempt : result response :=
    let conditions :=
      [PDict [(str "bucket", PStr bucket_name)];
       PDict [(str "key", PStr file_key)];
       PDict [(str "Content-Type", content_type)]] in
    encoded_filename <- quote file_name [] ;;
    let metadata :=
      [(str "x-amz-meta-uploaded-at", PStr (isoformat (now w 1)));
       (str "x-amz-meta-original-filename", PStr encoded_filename)] in
    let conditions := conditions ++ map (fun kv => PDict [kv]) metadata in
    let max_file_size := 10 * 1024 * 1024 * 1024 in
    let conditions :=
      conditions
      ++ [PList [PStr (str "content-length-range"); PInt 1;
                 PInt max_file_size]] in
    presigned_post <-
      s3_generate_presigned_post w bucket_name file_key
        (PDict ((str "Content-Type", content_type) :: metadata))
        (PList conditions) 3600 ;;
    presigned_put_url <-
      s3_generate_presigned_url w (str "put_object")
        (PDict
          [(str "Bucket", PStr bucket_name);
           (str "Key", PStr file_key);
           (str "ContentType", content_type);
           (str "Metadata", PDict
             [(str "uploaded-at", PStr (isoformat (now w 2)));
              (str "original-filename", PStr encoded_filename)])])
        3600 ;;
    url <- py_getitem presigned_post (str "url") ;;
    fields <- py_getitem presigned_post (str "fields") ;;
    Ok {|
      statusCode := 200;
      headers := [(str "Content-Type", str "application/json");
                  (str "Access-Control-Allow-Origin", str "*")];
      body := json_dumps L (PDict
        [(str "presigned_post",
          PDict [(str "url", url); (str "fields", fields)]);
         (str "presigned_put_url", presigned_put_url);
         (str "file_key", PStr file_key);
         (str "bucket", PStr bucket_name);
         (str "expires_in", PInt 3600);
         (str "max_file_size", PInt max_file_size);
         (str "generated_at", PStr (isoformat (now w 3)));
         (str "instructions", PDict
           [(str "post_method", PStr (str
              "Use presigned_post.url with form data including presigned_post.fields"));
            (str "put_method", PStr (str
              "Use presigned_put_url with PUT request and file as body"))])]) |}
  in
  Ok (try_except_Exception attempt (fun e => {|
    statusCode := 500;
    headers := [(str "Content-Type", str "application/json");
                (str "Access-Control-Allow-Origin", str "*")];
    body := json_dumps L (PDict
      [(str "error", PStr (str "Failed to generate presigned URL"))]) |}))
  end
  end.

(** [v.copy()]: a [dict] and a [list] have the method. *)
Definition py_copy (v : pyval) : result pyval :=
  match v with
  | PDict d => Ok (PDict d)
  | PList l => Ok (PList l)
  | _ => raise AttributeError "object has no attribute 'copy'"
  end.

(** [response[k]] on what [head_object] returned. *)
Definition head_getitem {A} (field : option A) (k : string) : result A :=
  match field with
  | Some v => Ok v
  | None => raise KeyError k
  end.

(** Lines 316-321: the stored file name is unquoted for display; when
    [unquote] raises, the entry is left as it is.  A [list] that holds the
    key cannot be indexed by it, which the same [except] swallows. *)
Definition decode_original_filename (metadata : pyval) : pyval :=
  match metadata with
  | PDict d =>
      match dict_get d (str "original-filename") with
      | Some stored =>
          try_except_Exception
            (decoded <- unquote stored ;;
             Ok (PDict (dict_set d (str "original-filename") (PStr decoded))))
            (fun e => PDict d)
      | None => PDict d
      end
  | other => other
  end.

(** [confirm_upload(event, context)], lines 247-364. *)
Definition confirm_upload (event : pyval) : result response :=
  let bucket_name := environ w (str "BUCKET_NAME") in
  let secret_arn := environ w (str "SECRET_ARN") in
  if env_missing bucket_name || env_missing secret_arn then
    Ok {|
      statusCode := 500;
      headers := [(str "Content-Type", str "application/json");
                  (str "Access-Control-Allow-Origin", str "*")];
      body := json_dumps L (PDict
        [(str "error", PStr (str "Missing required environment variables"))]) |}
  else
  let bucket_name := env_value bucket_name in
  auth <- authenticate_request event (env_value secret_arn) ;;
  match auth with
  | Rejected auth_error => Ok auth_error
  | Authenticated =>
  body <- decode_body event ;;
  parsed <-
    try_except (request_data <- load_json body ;; Ok (inr request_data))
      JSONDecodeError
      (Ok (inl {|
        statusCode := 400;
        headers := [(str "Content-Type", str "application/json");
                    (str "Access-Control-Allow-Origin", str "*")];
        body := json_dumps L (PDict
          [(str "error", PStr (str "Invalid JSON in request body"))]) |})) ;;
  match parsed with
  | inl error_response => Ok error_response
  | inr request_data =>
  file_key <- py_get request_data (str "file_key") PNone ;;
  if negb (truthy file_key) then
    Ok {|
      statusCode := 400;
      headers := [(str "Content-Type", str "application/json");
                  (str "Access-Control-Allow-Origin", str "*")];
      body := json_dumps L (PDict
        [(str "error", PStr (str "Missing required field: file_key"))]) |}
  else
  _ <- boto3_client w (str "s3") ;;
  let attempt : result response :=
    match file_key with
    | PStr file_key =>
      response <- s3_head_object w bucket_name file_key ;;
      let s3_url :=
        str "https://" ++ bucket_name ++ str ".s3.amazonaws.com/" ++ file_key in
      metadata <-
        py_copy (match Metadata response with
                 | Some m => m
                 | None => PDict []
                 end) ;;
      let metadata := decode_original_filename metadata in
      content_length <- head_getitem (ContentLength response) "ContentLength" ;;
      content_type <- head_getitem (ContentType response) "ContentType" ;;
      last_modified <- head_getitem (LastModified response) "LastModified" ;;
      Ok {|
        statusCode := 200;
        headers := [(str "Content-Type", str "application/json");
                    (str "Access-Control-Allow-Origin", str "*")];
        body := json_dumps L (PDict
          [(str "message", PStr (str "File upload confirmed"));
           (str "file_key", PStr file_key);
           (str "s3_url", PStr s3_url);
           (str "bucket", PStr bucket_name);
           (str "file_size", content_length);
           (str "content_type", content_type);
           (str "last_modified", PStr (isoformat last_modified));
           (str "metadata", metadata);
           (str "confirmed_at", PStr (isoformat (now w 0)))]) |}
    | _ =>
      (* the client validates its parameters: [Key] must be a [str] *)
      raise ParamValidationError "Invalid type for parameter Key"
    end in
  match attempt with
  | Ok r => Ok r
  | Raise e =>
    if is_class NoSuchKey e then
      Ok {|
        statusCode := 404;
        headers := [(str "Content-Type", str "application/json");
                    (str "Access-Control-Allow-Origin", str "*")];
        body := json_dumps L (PDict
          [(str "error", PStr (str "File not found in S3"))]) |}
    else
      Ok {|
        statusCode := 500;
        headers := [(str "Content-Type", str "application/json");
                    (str "Access-Control-Allow-Origin", str "*")];
        body := json_dumps L (PDict
          [(str "error", PStr (str "Failed to confirm upload"))]) |}
  end
  end
  end.

(** [handler(event, context)], lines 366-408. *)
Definition handler (event : pyval) : response :=
  try_except_Exception
    (resource_path <- py_get event (str "resource") (PStr []) ;;
     http_method <- py_get event (str "httpMethod") (PStr []) ;;
     if eq_str resource_path (str "/presigned-url")
        && eq_str http_method (str "POST")
     then generate_presigned_url event
     else if eq_str resource_path (str "/confirm-upload")
             && eq_str http_method (str "POST")
     then confirm_upload event
     else
       Ok {|
         statusCode := 404;
         headers := [(str "Content-Type", str "application/json");
                     (str "Access-Control-Allow-Origin", str "*")];
         body := json_dumps L (PDict
           [(str "error", PStr (str "Endpoint not found"));
            (str "available_endpoints", PList
              [PStr (str
                 "POST /presigned-url - Generate presigned URL for file upload");
               PStr (str
                 "POST /confirm-upload - Confirm file upload completion")])]) |})
    (fun e => {|
      statusCode := 500;
      headers := [(str "Content-Type", str "application/json");
                  (str "Access-Control-Allow-Origin", str "*")];
      body := json_dumps L (PDict
        [(str "error", PStr (str "Internal server error"))]) |}).

End Index.

(** ** Vocabulary of the statements *)

(** The two headers every response is to carry. *)
Definition standard_headers : dict pystr :=
  [(str "Content-Type", str "application/json");
   (str "Access-Control-Allow-Origin", str "*")].

(** The response whose body is [{"error": message}]. *)
Definition error_response (L : pylib) (status : Z) (message : string)
  : response :=
  {| statusCode := status;
     headers := standard_headers;
     body := json_dumps L (PDict [(str "error", PStr (str message))]) |}.

(** Lines 13-14 on their own: the value the authenticator takes for the
    Authorization header. *)
Definition lookup_auth_header (event : pyval) : result pyval :=
  headers <- py_get event (str "headers") (PDict []) ;;
  a <- py_get headers (str "Authorization") PNone ;;
  if truthy a then Ok a else py_get headers (str "authorization") PNone.

(** Lines 47-49 on their own: the secret the store holds under
    [secret_arn], as the authenticator reads it. *)
Definition fetch_secret (L : pylib) (w : world) (secret_arn : pystr)
  : result pyval :=
  secret_response <- get_secret_value w secret_arn ;;
  secret_string <- py_getitem secret_response (str "SecretString") ;;
  secret_data <- json_loads_value L secret_string ;;
  py_get secret_data (str "shared_secret") PNone.

(** ASCII case folding of a header name, and a lookup that ignores the
    letter case of the names, as the specification words it. *)
Definition ascii_lower (c : Z) : Z := if is_upper c then c + 32 else c.

Fixpoint dict_get_nocase {V} (d : dict V) (k : pystr) : option V :=
  match d with
  | [] => None
  | (k', v) :: d' =>
      if pystr_eqb (map ascii_lower k') (map ascii_lower k) then Some v
      else dict_get_nocase d' k
  end.

(** The event is a request for [method path]. *)
Definition routed (event : pyval) (path method : string) : Prop :=
  py_get event (str "resource") (PStr []) = Ok (PStr (str path))
  /\ py_get event (str "httpMethod") (PStr []) = Ok (PStr (str method)).

(** The process configuration is present. *)
Definition configured (w : world) (bucket_name secret_arn : pystr) : Prop :=
  environ w (str "BUCKET_NAME") = Some bucket_name
  /\ environ w (str "SECRET_ARN") = Some secret_arn
  /\ bucket_name <> [] /\ secret_arn <> [].

(** The request body, decoded, is the JSON text of [request_data]. *)
Definition request_json (L : pylib) (event request_data : pyval) : Prop :=
  exists body, decode_body L event = Ok body
               /\ load_json L body = Ok request_data.

(** A required field that is absent, [null] or the empty string. *)
Definition field_blank (d : dict pyval) (k : pystr) : Prop :=
  dict_get d k = None \/ dict_get d k = Some PNone
  \/ dict_get d k = Some (PStr []).

Definition is_hex_lower (c : Z) : bool :=
  is_digit c || ((97 <=? c) && (c <=? 102)).

(** [uploads/<8 digits>_<6 digits>_<8 characters>_<file_name>] *)
Definition file_key_pattern (file_name key : pystr) : Prop :=
  exists date time id,
    key = str "uploads/" ++ date ++ str "_" ++ time ++ str "_" ++ id
          ++ str "_" ++ file_name
    /\ List.length date = 8%nat /\ forallb is_digit date = true
    /\ List.length time = 6%nat /\ forallb is_digit time = true
    /\ List.length id = 8%nat /\ forallb is_hex_lower id = true.

(** The number a string of decimal digits writes. *)
Definition decimal_value (s : pystr) : Z :=
  fold_left (fun v c => 10 * v + (c - 48)) s 0.

(** The number a string of lower-case hexadecimal digits writes. *)
Definition hex_digit_value (c : Z) : Z :=
  if is_digit c then c - 48 else c - 87.

Definition hex_value (s : pystr) : Z :=
  fold_left (fun v c => 16 * v + hex_digit_value c) s 0.

(** [key] is [uploads/<date>_<time>_<id>_<file_name>], where the eight
    digits of [date] write the day of [dt] as [YYYYMMDD], the six digits of
    [time] its time of day as [HHMMSS], and the eight lower-case hexadecimal
    digits of [id] the number [bits]. *)
Definition file_key_of (dt : datetime) (bits : Z) (file_name key : pystr)
  : Prop :=
  exists date time id,
    key = str "uploads/" ++ date ++ str "_" ++ time ++ str "_" ++ id
          ++ str "_" ++ file_name
    /\ List.length date = 8%nat /\ forallb is_digit date = true
    /\ decimal_value date = year dt * 10000 + month dt * 100 + day dt
    /\ List.length time = 6%nat /\ forallb is_digit time = true
    /\ decimal_value time = hour dt * 10000 + minute dt * 100 + second dt
    /\ List.length id = 8%nat /\ forallb is_hex_lower id = true
    /\ hex_value id = bits.

(** The key line 155 builds for a [str] file name. *)
Definition issued_key (w : world) (file_name : pystr) : pystr :=
  str "uploads/" ++ strftime_Ymd_HMS (now w 0) ++ str "_"
  ++ slice_to 8 (uuid_str (uuid4 (urandom16 w))) ++ str "_" ++ file_name.

(** The response [r] hands out upload credentials that the object store
    issued for [bucket] and the key of [file_name], with [encoded] as the
    original file name to store with the object: in the form fields of the
    POST credential and in the metadata of the PUT credential. *)
Definition issuance (L : pylib) (w : world) (bucket file_name encoded : pystr)
  (r : response) : Prop :=
  exists fields conditions params metadata post put payload,
    s3_generate_presigned_post w bucket (issued_key w file_name)
      fields conditions 3600 = Ok post
    /\ py_getitem fields (str "x-amz-meta-original-filename")
       = Ok (PStr encoded)
    /\ s3_generate_presigned_url w (str "put_object") params 3600 = Ok put
    /\ py_getitem params (str "Key") = Ok (PStr (issued_key w file_name))
    /\ py_getitem params (str "Metadata") = Ok metadata
    /\ py_getitem metadata (str "original-filename") = Ok (PStr encoded)
    /\ r = {| statusCode := 200;
              headers := standard_headers;
              body := json_dumps L (PDict payload) |}
    /\ dict_get payload (str "file_key")
       = Some (PStr (issued_key w file_name))
    /\ dict_get payload (str "presigned_put_url") = Some put.

(** ** A sample library and world, for running the model *)

Fixpoint dec_digits (fuel : nat) (n : Z) : pystr :=
  match fuel with
  | O => []
  | S f => if n <? 10 then [48 + n] else dec_digits f (n / 10) ++ [48 + n mod 10]
  end.

(** A plain rendering of a value as JSON text. *)
Fixpoint sample_dumps (v : pyval) : pystr :=
  match v with
  | PNone => str "null"
  | PBool true => str "true"
  | PBool false => str "false"
  | PInt n =>
      (if n <? 0 then str "-" else []) ++ dec_digits 40 (Z.abs n)
  | PFloat _ => str "NaN"
  | PStr s => [34] ++ s ++ [34]
  | PList l =>
      str "["
      ++ (fix items (l : list pyval) : pystr :=
            match l with
            | [] => []
            | [x] => sample_dumps x
            | x :: l' => sample_dumps x ++ str ", " ++ items l'
            end) l
      ++ str "]"
  | PDict d =>
      str "{"
      ++ (fix items (d : list (pystr * pyval)) : pystr :=
            match d with
            | [] => []
            | [(k, x)] => [34] ++ k ++ [34] ++ str ": " ++ sample_dumps x
            | (k, x) :: d' =>
                [34] ++ k ++ [34] ++ str ": " ++ sample_dumps x ++ str ", "
                ++ items d'
            end) d
      ++ str "}"
  end.

Definition member (k v : string) : string * string := (k, v).

(** The JSON text of an object with the given [str] members. *)
Definition json_object (members : list (string * string)) : pystr :=
  sample_dumps (PDict (map (fun kv => (str (fst kv), PStr (str (snd kv)))) members)).

(** A parser that knows the few JSON texts the sample runs use. *)
Definition sample_loads (s : pystr) : result pyval :=
  let known :=
    [[member "shared_secret" "s3cret"];
     [member "file_name" "a b.txt"];
     [member "file_name" "a b.txt"; member "file_size" "huge"];
     [member "file_name" EmptyString];
     [member "file_key" EmptyString];
     [member "file_key" "uploads/missing.bin"];
     [member "file_key" "uploads/legacy.bin"];
     [member "file_key" "uploads/20251007_123456_00112233_a b.txt"]] in
  match find (fun m => pystr_eqb (json_object m) s) known with
  | Some m =>
      Ok (PDict (map (fun kv => (str (fst kv), PStr (str (snd kv)))) m))
  | None => raise JSONDecodeError "Expecting value"
  end.

Definition sample_lib : pylib :=
  {| json_loads := sample_loads;
     json_dumps := sample_dumps;
     b64decode := fun _ => raise ValueError "Incorrect padding";
     py_format := sample_dumps |}.

Definition sample_now (n : nat) : datetime :=
  {| year := 2025; month := 10; day := 7;
     hour := 12; minute := 34; second := 56;
     microsecond := 1000 + Z.of_nat n; tz_minutes := None |}.

Definition sample_head (key : pystr) : result head_output :=
  if pystr_eqb key (str "uploads/20251007_123456_00112233_a b.txt") then
    Ok {| Metadata := Some (PDict
            [(str "uploaded-at", PStr (str "2025-10-07T12:34:56.001001"));
             (str "original-filename", PStr (str "a%20b.txt"))]);
          ContentLength := Some (PInt 5);
          ContentType := Some (PStr (str "text/plain"));
          LastModified := Some
            {| year := 2025; month := 10; day := 7;
               hour := 12; minute := 35; second := 2;
               microsecond := 0; tz_minutes := Some 0 |} |}
  else if pystr_eqb key (str "uploads/legacy.bin") then
    (* an object that was not uploaded through the issuer: the octet its
       stored name escapes is not UTF-8 *)
    Ok {| Metadata := Some (PDict [(str "original-filename",
                                    PStr (str "%FF"))]);
          ContentLength := Some (PInt 0);
          ContentType := Some (PStr (str "binary/octet-stream"));
          LastModified := Some
            {| year := 2024; month := 2; day := 29;
               hour := 0; minute := 0; second := 0;
               microsecond := 0; tz_minutes := Some 0 |} |}
  else
    (* a HEAD response has no body to name the error: the client raises a
       plain [ClientError] carrying the HTTP status *)
    Raise {| exn_cls := ClientError;
             exn_text := str
               "An error occurred (404) when calling the HeadObject operation: Not Found" |}.

Definition sample_world : world :=
  {| environ := fun k =>
       if pystr_eqb k (str "BUCKET_NAME") then Some (str "jnuc-uploads")
       else if pystr_eqb k (str "SECRET_ARN") then Some (str "arn:aws:secret")
       else None;
     now := sample_now;
     urandom16 := 0x00112233445566778899aabbccddeeff;
     boto3_client := fun _ => Ok tt;
     get_secret_value := fun _ =>
       Ok (PDict [(str "SecretString",
                   PStr (json_object [member "shared_secret" "s3cret"]))]);
     s3_generate_presigned_post := fun bucket key fields conditions expires =>
       Ok (PDict [(str "url", PStr (str "https://" ++ bucket
                                    ++ str ".s3.amazonaws.com/"));
                  (str "fields", fields)]);
     s3_generate_presigned_url := fun method params expires =>
       Ok (PStr (str "https://s3.amazonaws.com/?X-Amz-Expires=3600"));
     s3_head_object := fun bucket key => sample_head key |}.

(** An API Gateway event. *)
Definition sample_items (path : string) (header_name token : string)
  (body : pystr) : dict pyval :=
  [(str "resource", PStr (str path));
   (str "httpMethod", PStr (str "POST"));
   (str "headers", PDict
     [(str header_name, PStr (str "Bearer " ++ str token))]);
   (str "body", PStr body);
   (str "isBase64Encoded", PBool false)].

Definition sample_event (path : string) (header_name token : string)
  (body : pystr) : pyval :=
  PDict (sample_items path header_name token body).

(** The request of the sample runs for an upload of [a b.txt]. *)
Definition sample_upload_request (header_name token : string) : pyval :=
  sample_event "/presigned-url" header_name token
    (json_object [member "file_name" "a b.txt"]).

(** The same world with a secret store that cannot be reached. *)
Definition sample_world_no_secret : world :=
  {| environ := environ sample_world;
     now := now sample_world;
     urandom16 := urandom16 sample_world;
     boto3_client := boto3_client sample_world;
     get_secret_value := fun _ =>
       Raise {| exn_cls := ClientError;
                exn_text := str "AccessDeniedException: arn:aws:secret" |};
     s3_generate_presigned_post := s3_generate_presigned_post sample_world;
     s3_generate_presigned_url := s3_generate_presigned_url sample_world;
     s3_head_object := s3_head_object sample_world |}.

(** ** Further vocabulary and sample runs *)

(** The status codes the source writes into a response. *)
Definition written_statuses : list Z := [200; 400; 401; 404; 500].

(** The answer of lines 382-395 to a request for no endpoint. *)
Definition endpoint_not_found (L : pylib) : response :=
  {| statusCode := 404;
     headers := standard_headers;
     body := json_dumps L (PDict
       [(str "error", PStr (str "Endpoint not found"));
        (str "available_endpoints", PList
          [PStr (str
             "POST /presigned-url - Generate presigned URL for file upload");
           PStr (str
             "POST /confirm-upload - Confirm file upload completion")])]) |}.

(** The size limit of line 180, 10 GiB. *)
Definition max_file_size : Z := 10 * 1024 * 1024 * 1024.

(** The world [w] with another secret store. *)
Definition with_secret_store (w : world) (store : pystr -> result pyval)
  : world :=
  {| environ := environ w;
     now := now w;
     urandom16 := urandom16 w;
     boto3_client := boto3_client w;
     get_secret_value := store;
     s3_generate_presigned_post := s3_generate_presigned_post w;
     s3_generate_presigned_url := s3_generate_presigned_url w;
     s3_head_object := s3_head_object w |}.

(** The world [w] with another process environment. *)
Definition with_environ (w : world) (env : pystr -> option pystr) : world :=
  {| environ := env;
     now := now w;
     urandom16 := urandom16 w;
     boto3_client := boto3_client w;
     get_secret_value := get_secret_value w;
     s3_generate_presigned_post := s3_generate_presigned_post w;
     s3_generate_presigned_url := s3_generate_presigned_url w;
     s3_head_object := s3_head_object w |}.

(** The world [w] with another signer of POST credentials. *)
Definition with_presigned_post (w : world)
  (sign : pystr -> pystr -> pyval -> pyval -> Z -> result pyval) : world :=
  {| environ := environ w;
     now := now w;
     urandom16 := urandom16 w;
     boto3_client := boto3_client w;
     get_secret_value := get_secret_value w;
     s3_generate_presigned_post := sign;
     s3_generate_presigned_url := s3_generate_presigned_url w;
     s3_head_object := s3_head_object w |}.

(** The world [w] with another answer to [head_object]. *)
Definition with_head_object (w : world)
  (head : pystr -> pystr -> result head_output) : world :=
  {| environ := environ w;
     now := now w;
     urandom16 := urandom16 w;
     boto3_client := boto3_client w;
     get_secret_value := get_secret_value w;
     s3_generate_presigned_post := s3_generate_presigned_post w;
     s3_generate_presigned_url := s3_generate_presigned_url w;
     s3_head_object := head |}.

(** The characters [quote] can produce: the always-safe ones and [%]. *)
Definition quoted_char (c : Z) : bool := always_safe c || (c =? 37).

(** A parser that knows a few more JSON texts than [sample_loads]. *)
Definition more_loads (s : pystr) : result pyval :=
  if pystr_eqb s (str "[1]") then Ok (PList [PInt 1])
  else if pystr_eqb s (sample_dumps (PDict [(str "file_name", PInt 7)]))
  then Ok (PDict [(str "file_name", PInt 7)])
  else if pystr_eqb s
            (json_object [member "file_name" "a b.txt";
                          member "content_type" "application/octet-stream"])
  then Ok (PDict [(str "file_name", PStr (str "a b.txt"));
                  (str "content_type", PStr (str "application/octet-stream"))])
  else if pystr_eqb s (json_object [member "shared_secret" EmptyString])
  then Ok (PDict [(str "shared_secret", PStr [])])
  else sample_loads s.

(** The number of [[] a text starts with. *)
Fixpoint leading_brackets (s : pystr) : Z :=
  match s with
  | c :: s' => if c =? 91 then 1 + leading_brackets s' else 0
  | [] => 0
  end.

(** The JSON text of an upload request for [a b.txt] with an integer
    [file_size], written with the given digits. *)
Definition sized_prefix : pystr :=
  str "{" ++ [34] ++ str "file_name" ++ [34] ++ str ": "
  ++ [34] ++ str "a b.txt" ++ [34] ++ str ", "
  ++ [34] ++ str "file_size" ++ [34] ++ str ": ".

Definition sized_upload (digits : pystr) : pystr :=
  sized_prefix ++ digits ++ str "}".

(** A parser with the two limits of [json.loads] that are not reported as
    [JSONDecodeError]: the decoder recurses once for each level of nesting
    and stops with [RecursionError] at the interpreter's recursion limit
    (1000 by default), before it has seen whether the brackets are ever
    closed; and [int] refuses a literal of more than 4300 digits with
    [ValueError] (CPython 3.11 and later).  It knows the upload requests with
    a [file_size] and falls back to [more_loads]. *)
Definition limited_loads (s : pystr) : result pyval :=
  if 1000 <=? leading_brackets s then
    raise RecursionError
      "maximum recursion depth exceeded while decoding a JSON array from a unicode string"
  else if startswith s sized_prefix then
    let rest := skipn (List.length sized_prefix) s in
    let digits := removelast rest in
    if forallb is_digit digits && (0 <? Z.of_nat (List.length digits))
       && pystr_eqb rest (digits ++ str "}")
    then
      if 4300 <? Z.of_nat (List.length digits) then
        raise ValueError
          "Exceeds the limit (4300 digits) for integer string conversion"
      else
        Ok (PDict [(str "file_name", PStr (str "a b.txt"));
                   (str "file_size", PInt (decimal_value digits))])
    else more_loads s
  else more_loads s.

Definition sample_lib_limited : pylib :=
  {| json_loads := limited_loads;
     json_dumps := sample_dumps;
     b64decode := b64decode sample_lib;
     py_format := sample_dumps |}.

(** A body of 100000 opening brackets, none of them closed. *)
Definition unclosed_brackets : pystr := repeat 91 (Z.to_nat 100000).

(** An integer literal of 5000 digits. *)
Definition long_integer : pystr := repeat 57 (Z.to_nat 5000).

Definition sample_lib_more : pylib :=
  {| json_loads := more_loads;
     json_dumps := sample_dumps;
     b64decode := b64decode sample_lib;
     py_format := sample_dumps |}.

(** An API Gateway event with the given method, [headers] value and body. *)
Definition sample_request (path method : string) (headers : pyval)
  (body : pystr) : pyval :=
  PDict [(str "resource", PStr (str path));
         (str "httpMethod", PStr (str method));
         (str "headers", headers);
         (str "body", PStr body);
         (str "isBase64Encoded", PBool false)].

(** The headers of a request that presents [token]. *)
Definition bearer (token : string) : pyval :=
  PDict [(str "Authorization", PStr (str "Bearer " ++ str token))].


(** * Properties *)

(** ** Strings and lookups *)

Lemma pystr_eqb_eq (a b : pystr) : pystr_eqb a b = true <-> a = b.
Proof.
  revert b; induction a as [|x a IH]; intros [|y b]; simpl;
    try (split; [discriminate | discriminate]); try tauto.
  rewrite andb_true_iff, Z.eqb_eq, IH.
  split; [intros [-> ->]; reflexivity | intros H; inversion H; auto].
Qed.

Lemma pystr_eqb_refl (a : pystr) : pystr_eqb a a = true.
Proof. apply pystr_eqb_eq; reflexivity. Qed.

Lemma pystr_eqb_neq (a b : pystr) : a <> b -> pystr_eqb a b = false.
Proof.
  intros H; destruct (pystr_eqb a b) eqn:E; [|reflexivity].
  apply pystr_eqb_eq in E; contradiction.
Qed.

Lemma eq_str_true (v : pyval) (s : pystr) : eq_str v s = true <-> v = PStr s.
Proof.
  destruct v; simpl; try (split; [discriminate | discriminate]).
  rewrite pystr_eqb_eq; split; [intros ->; reflexivity | intros H; inversion H; auto].
Qed.

Lemma eq_str_false (v : pyval) (s : pystr) : v <> PStr s -> eq_str v s = false.
Proof.
  intros H; destruct (eq_str v s) eqn:E; [|reflexivity].
  apply eq_str_true in E; contradiction.
Qed.

Lemma startswith_app (p s : pystr) : startswith (p ++ s) p = true.
Proof. induction p as [|c p IH]; simpl; [reflexivity|]. rewrite Z.eqb_refl; exact IH. Qed.

Lemma startswith_split (s p : pystr) :
  startswith s p = true -> s = p ++ skipn (List.length p) s.
Proof.
  revert s; induction p as [|c p IH]; intros s; simpl; [reflexivity|].
  destruct s as [|x s]; [discriminate|].
  rewrite andb_true_iff, Z.eqb_eq; intros [-> H].
  simpl; f_equal; apply IH; exact H.
Qed.

(** ** Case analysis on the model *)

(** Split on the innermost scrutinee of a [match] in the goal or in [H]. *)
Ltac split_match_in H :=
  match type of H with
  | context [match ?x with _ => _ end] =>
      lazymatch x with
      | context [match _ with _ => _ end] => fail
      | _ => destruct x eqn:?; cbv beta match in H
      end
  end.

Ltac split_match_goal :=
  match goal with
  | |- context [match ?x with _ => _ end] =>
      lazymatch x with
      | context [match _ with _ => _ end] => fail
      | _ => destruct x eqn:?; cbv beta match
      end
  end.

Ltac returned H := injection H as <-.

(** ** The standard headers (C6) *)

Lemma authenticate_request_headers L w event secret_arn r :
  authenticate_request L w event secret_arn = Ok (Rejected r) ->
  headers r = standard_headers.
Proof.
  unfold authenticate_request, bind, try_except_Exception; intros H.
  repeat split_match_in H; try discriminate; returned H; reflexivity.
Qed.

Lemma generate_presigned_url_headers L w event r :
  generate_presigned_url L w event = Ok r -> headers r = standard_headers.
Proof.
  unfold generate_presigned_url, bind, try_except, try_except_Exception;
    intros H.
  repeat split_match_in H; try discriminate; returned H;
    first [ reflexivity | eapply authenticate_request_headers; eassumption ].
Qed.

Lemma confirm_upload_headers L w event r :
  confirm_upload L w event = Ok r -> headers r = standard_headers.
Proof.
  unfold confirm_upload, bind, try_except, try_except_Exception;
    intros H.
  repeat split_match_in H; try discriminate; returned H;
    first [ reflexivity | eapply authenticate_request_headers; eassumption ].
Qed.

Lemma handler_headers L w event :
  headers (handler L w event) = standard_headers.
Proof.
  unfold handler, try_except_Exception.
  destruct (bind _ _) as [r|e] eqn:H; [|reflexivity].
  unfold bind in H.
  repeat split_match_in H; try discriminate;
    first [ eapply generate_presigned_url_headers; eassumption
          | eapply confirm_upload_headers; eassumption
          | returned H; reflexivity ].
Qed.

(** C6. Whatever the event, the library and the world, the response of
    [handler] carries [Content-Type: application/json] and
    [Access-Control-Allow-Origin: *]. *)
Theorem handler_response_has_standard_headers L w event :
  dict_get (headers (handler L w event)) (str "Content-Type")
    = Some (str "application/json")
  /\ dict_get (headers (handler L w event)) (str "Access-Control-Allow-Origin")
    = Some (str "*").
Proof. rewrite handler_headers; split; reflexivity. Qed.

(** ** The authenticator (C1, C2, C7) *)

(** The authenticator's own lookup is [lookup_auth_header]. *)
Lemma authenticate_request_lookup L w event secret_arn r :
  lookup_auth_header event = Raise r ->
  authenticate_request L w event secret_arn = Raise r.
Proof.
  unfold lookup_auth_header, authenticate_request; intros H.
  destruct (py_get event (str "headers") (PDict [])) as [hs|]; cbn [bind] in *;
    [|congruence].
  destruct (py_get hs (str "Authorization") PNone) as [a|]; cbn [bind] in *;
    [|congruence].
  rewrite H; reflexivity.
Qed.

(** Past the header checks, the outcome is decided by the fetched secret. *)
Lemma authenticate_request_bearer L w event secret_arn h :
  lookup_auth_header event = Ok (PStr h) ->
  startswith h (str "Bearer ") = true ->
  boto3_client w (str "secretsmanager") = Ok tt ->
  authenticate_request L w event secret_arn =
  match fetch_secret L w secret_arn with
  | Raise e =>
      Ok (Rejected
            (error_response L 500 "Failed to retrieve authentication secret"))
  | Ok expected_secret =>
      if negb (truthy expected_secret) then
        Ok (Rejected
              (error_response L 500 "Shared secret not found in Secrets Manager"))
      else if negb (eq_str expected_secret (slice_from 7 h)) then
        Ok (Rejected (error_response L 401 "Invalid authentication token"))
      else Ok Authenticated
  end.
Proof.
  unfold lookup_auth_header, authenticate_request, fetch_secret.
  intros Hh Hs Hc.
  destruct (py_get event (str "headers") (PDict [])) as [hs|]; cbn [bind] in *;
    [|discriminate].
  destruct (py_get hs (str "Authorization") PNone) as [a|]; cbn [bind] in *;
    [|discriminate].
  rewrite Hh; cbn [bind].
  destruct h as [|c h]; [discriminate|].
  cbn [truthy negb]. rewrite Hs, Hc; cbn [negb bind].
  destruct (get_secret_value w secret_arn) as [sr|]; cbn [bind try_except_Exception];
    [|reflexivity].
  destruct (py_getitem sr _) as [ss|]; cbn [bind try_except_Exception];
    [|reflexivity].
  destruct (json_loads_value L ss) as [sd|]; cbn [bind try_except_Exception];
    [|reflexivity].
  destruct (py_get sd _ PNone) as [ex|]; cbn [bind try_except_Exception];
    [|reflexivity].
  destruct (truthy ex); cbn [negb try_except_Exception]; [|reflexivity].
  destruct (eq_str ex _); reflexivity.
Qed.

(** C1. A request that carries its token under [AUTHORIZATION] has an
    Authorization header when letter case is ignored, yet the authenticator
    answers 401 "Missing Authorization header"; the same request with the
    name spelt [Authorization] is authenticated. *)
Theorem uppercase_authorization_header_is_missed :
  let event := sample_upload_request "AUTHORIZATION" "s3cret" in
  (exists hs,
      py_get event (str "headers") (PDict []) = Ok (PDict hs)
      /\ dict_get_nocase hs (str "Authorization")
         = Some (PStr (str "Bearer s3cret")))
  /\ authenticate_request sample_lib sample_world event (str "arn:aws:secret")
     = Ok (Rejected
             (error_response sample_lib 401 "Missing Authorization header"))
  /\ authenticate_request sample_lib sample_world
       (sample_upload_request "Authorization" "s3cret") (str "arn:aws:secret")
     = Ok Authenticated.
Proof.
  split; [|split].
  - eexists; split; vm_compute; reflexivity.
  - vm_compute; reflexivity.
  - vm_compute; reflexivity.
Qed.

(** C2. When the Authorization header starts with "Bearer " and the store
    holds a secret, any token that is not that secret is answered with 401
    "Invalid authentication token". *)
Theorem wrong_token_is_rejected L w event secret_arn h expected_secret :
  lookup_auth_header event = Ok (PStr h) ->
  startswith h (str "Bearer ") = true ->
  boto3_client w (str "secretsmanager") = Ok tt ->
  fetch_secret L w secret_arn = Ok expected_secret ->
  truthy expected_secret = true ->
  expected_secret <> PStr (slice_from 7 h) ->
  authenticate_request L w event secret_arn
  = Ok (Rejected (error_response L 401 "Invalid authentication token")).
Proof.
  intros Hh Hs Hc Hf Ht Hne.
  rewrite (authenticate_request_bearer L w event secret_arn h Hh Hs Hc), Hf, Ht.
  rewrite (eq_str_false _ _ Hne); reflexivity.
Qed.

Lemma wrong_token_is_rejected_witness :
  authenticate_request sample_lib sample_world
    (sample_upload_request "Authorization" "guess") (str "arn:aws:secret")
  = Ok (Rejected (error_response sample_lib 401 "Invalid authentication token")).
Proof.
  apply (wrong_token_is_rejected sample_lib sample_world _ _
           (str "Bearer guess") (PStr (str "s3cret")));
    try (vm_compute; reflexivity).
  vm_compute; discriminate.
Defined.

(** C7. When the fetch from the secret store raises, whatever the exception,
    the authenticator answers 500 with the one fixed body
    [{"error": "Failed to retrieve authentication secret"}], in which the
    exception has no part. *)
Theorem secret_fetch_failure_gives_fixed_500 L w event secret_arn h e :
  lookup_auth_header event = Ok (PStr h) ->
  startswith h (str "Bearer ") = true ->
  boto3_client w (str "secretsmanager") = Ok tt ->
  get_secret_value w secret_arn = Raise e ->
  authenticate_request L w event secret_arn
  = Ok (Rejected
          (error_response L 500 "Failed to retrieve authentication secret")).
Proof.
  intros Hh Hs Hc Hg.
  rewrite (authenticate_request_bearer L w event secret_arn h Hh Hs Hc).
  unfold fetch_secret; rewrite Hg; reflexivity.
Qed.

Lemma secret_fetch_failure_gives_fixed_500_witness :
  authenticate_request sample_lib sample_world_no_secret
    (sample_upload_request "authorization" "s3cret") (str "arn:aws:secret")
  = Ok (Rejected
          (error_response sample_lib 500
             "Failed to retrieve authentication secret")).
Proof.
  apply (secret_fetch_failure_gives_fixed_500 sample_lib sample_world_no_secret
           _ _ (str "Bearer s3cret")
           {| exn_cls := ClientError;
              exn_text := str "AccessDeniedException: arn:aws:secret" |});
    vm_compute; reflexivity.
Defined.

(** ** Routing and the common prelude *)

Lemma handler_presigned_url L w event :
  routed event "/presigned-url" "POST" ->
  handler L w event =
  try_except_Exception (generate_presigned_url L w event)
    (fun e => error_response L 500 "Internal server error").
Proof.
  intros [Hr Hm]; unfold handler; rewrite Hr, Hm; reflexivity.
Qed.

Lemma handler_confirm_upload L w event :
  routed event "/confirm-upload" "POST" ->
  handler L w event =
  try_except_Exception (confirm_upload L w event)
    (fun e => error_response L 500 "Internal server error").
Proof.
  intros [Hr Hm]; unfold handler; rewrite Hr, Hm; reflexivity.
Qed.

Lemma env_present (v : pystr) : v <> [] -> env_missing (Some v) = false.
Proof. destruct v; [contradiction | reflexivity]. Qed.

(** Rewrites the configuration and authentication steps away. *)
Ltac prelude Hcfg Hauth :=
  let Hb := fresh "Hb" in
  let Hs := fresh "Hs" in
  let Hbn := fresh "Hbn" in
  let Hsn := fresh "Hsn" in
  destruct Hcfg as (Hb & Hs & Hbn & Hsn);
  rewrite Hb, Hs, (env_present _ Hbn), (env_present _ Hsn);
  cbn [orb env_value]; rewrite Hauth; cbn [bind].

(** Rewrites the decoding and parsing of the body away. *)
Ltac parsed Hjson :=
  let b := fresh "body" in
  let Hd := fresh "Hd" in
  let Hl := fresh "Hl" in
  destruct Hjson as (b & Hd & Hl);
  rewrite Hd; cbn [bind]; rewrite Hl; cbn [bind try_except].

Lemma truthy_blank (d : dict pyval) (k : pystr) :
  field_blank d k ->
  truthy (match dict_get d k with Some v => v | None => PNone end) = false.
Proof. intros [H | [H | H]]; rewrite H; reflexivity. Qed.

Lemma generate_presigned_url_without_file_name L w event bucket secret_arn d :
  configured w bucket secret_arn ->
  authenticate_request L w event secret_arn = Ok Authenticated ->
  request_json L event (PDict d) ->
  truthy (match dict_get d (str "file_name") with Some v => v | None => PNone end)
  = false ->
  generate_presigned_url L w event
  = Ok (error_response L 400 "Missing required field: file_name").
Proof.
  intros Hcfg Hauth Hjson Hf; unfold generate_presigned_url.
  prelude Hcfg Hauth. parsed Hjson.
  cbn [py_get bind]. rewrite Hf; reflexivity.
Qed.

Lemma confirm_upload_without_file_key L w event bucket secret_arn d :
  configured w bucket secret_arn ->
  authenticate_request L w event secret_arn = Ok Authenticated ->
  request_json L event (PDict d) ->
  truthy (match dict_get d (str "file_key") with Some v => v | None => PNone end)
  = false ->
  confirm_upload L w event
  = Ok (error_response L 400 "Missing required field: file_key").
Proof.
  intros Hcfg Hauth Hjson Hf; unfold confirm_upload.
  prelude Hcfg Hauth. parsed Hjson.
  cbn [py_get bind]. rewrite Hf; reflexivity.
Qed.

(** ** Body validation (C8, C10) *)

(** X26. For an authenticated request to /presigned-url: an empty decoded
    body is answered 400 "Missing required field: file_name"; when
    [json.loads] raises on the decoded body, the class of the exception
    decides the answer, 400 "Invalid JSON in request body" for
    [JSONDecodeError] and 500 "Internal server error" for any other. *)
Theorem parser_verdict_decides_the_answer L w event bucket secret_arn body :
  routed event "/presigned-url" "POST" ->
  configured w bucket secret_arn ->
  authenticate_request L w event secret_arn = Ok Authenticated ->
  decode_body L event = Ok body ->
  (truthy body = false ->
   handler L w event
   = error_response L 400 "Missing required field: file_name")
  /\ (forall e, load_json L body = Raise e -> exn_cls e = JSONDecodeError ->
      handler L w event = error_response L 400 "Invalid JSON in request body")
  /\ (forall e, load_json L body = Raise e -> exn_cls e <> JSONDecodeError ->
      handler L w event = error_response L 500 "Internal server error").
Proof.
  intros Hr Hcfg Hauth Hd; rewrite (handler_presigned_url L w event Hr).
  split; [|split].
  - intros Hempty.
    rewrite (generate_presigned_url_without_file_name L w event bucket
               secret_arn [] Hcfg Hauth); [reflexivity | | reflexivity].
    exists body; split; [exact Hd|]. unfold load_json; rewrite Hempty; reflexivity.
  - intros e Hl He. unfold generate_presigned_url.
    prelude Hcfg Hauth. rewrite Hd; cbn [bind]; rewrite Hl; cbn [bind try_except].
    unfold is_class; rewrite He; reflexivity.
  - intros e Hl He. unfold generate_presigned_url.
    prelude Hcfg Hauth. rewrite Hd; cbn [bind]; rewrite Hl; cbn [bind try_except].
    unfold is_class. destruct (exn_cls e); try reflexivity. contradiction.
Qed.

Lemma parser_verdict_decides_the_answer_witness :
  handler sample_lib sample_world
    (sample_event "/presigned-url" "Authorization" "s3cret" [])
  = error_response sample_lib 400 "Missing required field: file_name"
  /\ handler sample_lib sample_world
       (sample_event "/presigned-url" "Authorization" "s3cret" (str "{oops"))
     = error_response sample_lib 400 "Invalid JSON in request body"
  /\ handler sample_lib_limited sample_world
       (sample_event "/presigned-url" "Authorization" "s3cret"
          (sized_upload long_integer))
     = error_response sample_lib_limited 500 "Internal server error".
Proof.
  split; [|split].
  - apply (proj1 (parser_verdict_decides_the_answer sample_lib sample_world
                    (sample_event "/presigned-url" "Authorization" "s3cret" [])
                    (str "jnuc-uploads") (str "arn:aws:secret") (PStr [])
                    ltac:(split; vm_compute; reflexivity)
                    ltac:(repeat split; vm_compute; try reflexivity; discriminate)
                    ltac:(vm_compute; reflexivity)
                    ltac:(vm_compute; reflexivity)));
      reflexivity.
  - apply (proj1 (proj2 (parser_verdict_decides_the_answer sample_lib
                    sample_world
                    (sample_event "/presigned-url" "Authorization" "s3cret"
                       (str "{oops"))
                    (str "jnuc-uploads") (str "arn:aws:secret")
                    (PStr (str "{oops"))
                    ltac:(split; vm_compute; reflexivity)
                    ltac:(repeat split; vm_compute; try reflexivity; discriminate)
                    ltac:(vm_compute; reflexivity)
                    ltac:(vm_compute; reflexivity)))
                 {| exn_cls := JSONDecodeError; exn_text := str "Expecting value" |});
      vm_compute; reflexivity.
  - apply (proj2 (proj2 (parser_verdict_decides_the_answer sample_lib_limited
                    sample_world
                    (sample_event "/presigned-url" "Authorization" "s3cret"
                       (sized_upload long_integer))
                    (str "jnuc-uploads") (str "arn:aws:secret")
                    (PStr (sized_upload long_integer))
                    ltac:(split; vm_compute; reflexivity)
                    ltac:(repeat split; vm_compute; try reflexivity; discriminate)
                    ltac:(vm_compute; reflexivity)
                    ltac:(vm_compute; reflexivity)))
                 {| exn_cls := ValueError;
                    exn_text := str
                      "Exceeds the limit (4300 digits) for integer string conversion" |});
      [vm_compute; reflexivity | vm_compute; discriminate].
Defined.

(** C8. An empty body on /presigned-url is read as an empty object and
    answered 400 "Missing required field: file_name", and a body the parser
    rejects as malformed is answered 400 "Invalid JSON in request body"; but
    a body of opening brackets that are never closed, on which the parser
    reaches the recursion limit, is answered 500 "Internal server error". *)
Theorem unclosed_brackets_body_answers_500 :
  handler sample_lib_limited sample_world
    (sample_event "/presigned-url" "Authorization" "s3cret" [])
  = error_response sample_lib_limited 400 "Missing required field: file_name"
  /\ handler sample_lib_limited sample_world
       (sample_event "/presigned-url" "Authorization" "s3cret" (str "{oops"))
     = error_response sample_lib_limited 400 "Invalid JSON in request body"
  /\ json_loads sample_lib_limited unclosed_brackets
     = raise RecursionError
         "maximum recursion depth exceeded while decoding a JSON array from a unicode string"
  /\ handler sample_lib_limited sample_world
       (sample_event "/presigned-url" "Authorization" "s3cret"
          unclosed_brackets)
     = error_response sample_lib_limited 500 "Internal server error".
Proof. repeat apply conj; vm_compute; reflexivity. Qed.

(** C10. A required field that is present but [null] or the empty string is
    answered exactly as an absent one: 400 "Missing required field:
    file_name" on /presigned-url, 400 "Missing required field: file_key" on
    /confirm-upload. *)
Theorem blank_required_field_is_missing L w event bucket secret_arn d :
  configured w bucket secret_arn ->
  authenticate_request L w event secret_arn = Ok Authenticated ->
  request_json L event (PDict d) ->
  (routed event "/presigned-url" "POST" ->
   field_blank d (str "file_name") ->
   handler L w event
   = error_response L 400 "Missing required field: file_name")
  /\ (routed event "/confirm-upload" "POST" ->
      field_blank d (str "file_key") ->
      handler L w event
      = error_response L 400 "Missing required field: file_key").
Proof.
  intros Hcfg Hauth Hjson; split; intros Hr Hblank.
  - rewrite (handler_presigned_url L w event Hr).
    rewrite (generate_presigned_url_without_file_name L w event bucket
               secret_arn d Hcfg Hauth Hjson (truthy_blank _ _ Hblank)).
    reflexivity.
  - rewrite (handler_confirm_upload L w event Hr).
    rewrite (confirm_upload_without_file_key L w event bucket
               secret_arn d Hcfg Hauth Hjson (truthy_blank _ _ Hblank)).
    reflexivity.
Qed.

Lemma blank_required_field_is_missing_witness :
  handler sample_lib sample_world
    (sample_event "/presigned-url" "Authorization" "s3cret"
       (json_object [member "file_name" EmptyString]))
  = error_response sample_lib 400 "Missing required field: file_name"
  /\ handler sample_lib sample_world
       (sample_event "/confirm-upload" "Authorization" "s3cret"
          (json_object [member "file_key" EmptyString]))
     = error_response sample_lib 400 "Missing required field: file_key".
Proof.
  split.
  - apply (proj1 (blank_required_field_is_missing sample_lib sample_world
                    (sample_event "/presigned-url" "Authorization" "s3cret"
                       (json_object [member "file_name" EmptyString]))
                    (str "jnuc-uploads") (str "arn:aws:secret")
                    [(str "file_name", PStr [])]
                    ltac:(repeat split; vm_compute; try reflexivity; discriminate)
                    ltac:(vm_compute; reflexivity)
                    ltac:(exists (PStr (json_object [member "file_name" EmptyString]));
                          split; vm_compute; reflexivity))).
    + split; vm_compute; reflexivity.
    + right; right; vm_compute; reflexivity.
  - apply (proj2 (blank_required_field_is_missing sample_lib sample_world
                    (sample_event "/confirm-upload" "Authorization" "s3cret"
                       (json_object [member "file_key" EmptyString]))
                    (str "jnuc-uploads") (str "arn:aws:secret")
                    [(str "file_key", PStr [])]
                    ltac:(repeat split; vm_compute; try reflexivity; discriminate)
                    ltac:(vm_compute; reflexivity)
                    ltac:(exists (PStr (json_object [member "file_key" EmptyString]));
                          split; vm_compute; reflexivity))).
    + split; vm_compute; reflexivity.
    + right; right; vm_compute; reflexivity.
Defined.

(** ** Confirmation of a missing object (C3) *)

(** The 404 branch: taken when [head_object] raises [NoSuchKey]. *)
Lemma confirm_upload_no_such_key_is_404
  L w event bucket secret_arn d file_key e :
  routed event "/confirm-upload" "POST" ->
  configured w bucket secret_arn ->
  authenticate_request L w event secret_arn = Ok Authenticated ->
  request_json L event (PDict d) ->
  dict_get d (str "file_key") = Some (PStr file_key) ->
  file_key <> [] ->
  boto3_client w (str "s3") = Ok tt ->
  s3_head_object w bucket file_key = Raise e ->
  exn_cls e = NoSuchKey ->
  handler L w event = error_response L 404 "File not found in S3".
Proof.
  intros Hr Hcfg Hauth Hjson Hk Hne Hc Hh He.
  rewrite (handler_confirm_upload L w event Hr). unfold confirm_upload.
  prelude Hcfg Hauth. parsed Hjson.
  cbn [py_get bind]. rewrite Hk.
  destruct file_key as [|c k]; [contradiction|].
  cbn [truthy negb]. rewrite Hc; cbn [bind]. rewrite Hh; cbn [bind].
  unfold is_class; rewrite He; reflexivity.
Qed.

(** Any other exception of [head_object], such as the plain [ClientError] of
    an HTTP 404, takes the last [except] clause. *)
Lemma confirm_upload_other_failure_is_500
  L w event bucket secret_arn d file_key e :
  routed event "/confirm-upload" "POST" ->
  configured w bucket secret_arn ->
  authenticate_request L w event secret_arn = Ok Authenticated ->
  request_json L event (PDict d) ->
  dict_get d (str "file_key") = Some (PStr file_key) ->
  file_key <> [] ->
  boto3_client w (str "s3") = Ok tt ->
  s3_head_object w bucket file_key = Raise e ->
  exn_cls e <> NoSuchKey ->
  handler L w event = error_response L 500 "Failed to confirm upload".
Proof.
  intros Hr Hcfg Hauth Hjson Hk Hne Hc Hh He.
  rewrite (handler_confirm_upload L w event Hr). unfold confirm_upload.
  prelude Hcfg Hauth. parsed Hjson.
  cbn [py_get bind]. rewrite Hk.
  destruct file_key as [|c k]; [contradiction|].
  cbn [truthy negb]. rewrite Hc; cbn [bind]. rewrite Hh; cbn [bind].
  unfold is_class. destruct (exn_cls e); try reflexivity. contradiction.
Qed.

(** C3. An authenticated /confirm-upload for the key [uploads/missing.bin],
    which the bucket does not hold, is to be answered 404 "File not found in
    S3".  The object store reports the absence of a probed object by a
    [ClientError] with the HTTP status, not by [NoSuchKey]; the handler then
    answers 500 "Failed to confirm upload". *)
Theorem confirm_upload_of_missing_object_answers_500 :
  let event :=
    sample_event "/confirm-upload" "Authorization" "s3cret"
      (json_object [member "file_key" "uploads/missing.bin"]) in
  (exists e, s3_head_object sample_world (str "jnuc-uploads")
               (str "uploads/missing.bin") = Raise e
             /\ exn_cls e = ClientError)
  /\ handler sample_lib sample_world event
     = error_response sample_lib 500 "Failed to confirm upload"
  /\ handler sample_lib sample_world event
     <> error_response sample_lib 404 "File not found in S3".
Proof.
  split; [|split].
  - eexists; split; vm_compute; reflexivity.
  - vm_compute; reflexivity.
  - vm_compute; discriminate.
Qed.

(** ** The [file_size] field (C9) *)

Ltac str_neq := let H := fresh in intro H; vm_compute in H; discriminate H.

Lemma authenticate_request_reads_headers L w e1 e2 secret_arn :
  py_get e1 (str "headers") (PDict []) = py_get e2 (str "headers") (PDict []) ->
  authenticate_request L w e1 secret_arn = authenticate_request L w e2 secret_arn.
Proof. unfold authenticate_request; intros ->; reflexivity. Qed.

Section FileSize.

Variables (L : pylib) (w : world).
Variables (ev1 ev2 d1 d2 : dict pyval).

(** The two events agree on everything but the body. *)
Hypothesis same_event : forall k, k <> str "body" -> dict_get ev1 k = dict_get ev2 k.

(** The two bodies are JSON objects ... *)
Hypothesis json1 : request_json L (PDict ev1) (PDict d1).
Hypothesis json2 : request_json L (PDict ev2) (PDict d2).

(** ... that agree on every member but [file_size]. *)
Hypothesis same_body :
  forall k, k <> str "file_size" -> dict_get d1 k = dict_get d2 k.

Lemma same_authentication secret_arn :
  authenticate_request L w (PDict ev1) secret_arn
  = authenticate_request L w (PDict ev2) secret_arn.
Proof.
  apply authenticate_request_reads_headers; cbn [py_get].
  rewrite (same_event (str "headers")) by str_neq; reflexivity.
Qed.

Lemma generate_presigned_url_ignores_file_size :
  generate_presigned_url L w (PDict ev1) = generate_presigned_url L w (PDict ev2).
Proof.
  unfold generate_presigned_url.
  destruct (env_missing _ || env_missing _); [reflexivity|].
  rewrite same_authentication.
  destruct (authenticate_request L w (PDict ev2) _) as [[|r]|]; cbn [bind];
    try reflexivity.
  destruct json1 as (b1 & Hd1 & Hl1), json2 as (b2 & Hd2 & Hl2).
  rewrite Hd1, Hd2; cbn [bind]; rewrite Hl1, Hl2; cbn [bind try_except py_get].
  rewrite (same_body (str "file_name")), (same_body (str "content_type"))
    by str_neq.
  reflexivity.
Qed.

Lemma confirm_upload_ignores_file_size :
  confirm_upload L w (PDict ev1) = confirm_upload L w (PDict ev2).
Proof.
  unfold confirm_upload.
  destruct (env_missing _ || env_missing _); [reflexivity|].
  rewrite same_authentication.
  destruct (authenticate_request L w (PDict ev2) _) as [[|r]|]; cbn [bind];
    try reflexivity.
  destruct json1 as (b1 & Hd1 & Hl1), json2 as (b2 & Hd2 & Hl2).
  rewrite Hd1, Hd2; cbn [bind]; rewrite Hl1, Hl2; cbn [bind try_except py_get].
  rewrite (same_body (str "file_key")) by str_neq.
  reflexivity.
Qed.

Lemma handler_ignores_file_size :
  handler L w (PDict ev1) = handler L w (PDict ev2).
Proof.
  unfold handler; cbn [py_get bind].
  rewrite (same_event (str "resource")), (same_event (str "httpMethod"))
    by str_neq.
  rewrite generate_presigned_url_ignores_file_size,
    confirm_upload_ignores_file_size.
  reflexivity.
Qed.

End FileSize.

(** C9. Two requests that differ only in their bodies, the bodies being
    texts that [json.loads] reads as objects that differ only in the presence
    or value of [file_size], get the same response from the same library and
    world (clock, random source, external services); on /presigned-url in
    particular. *)
Theorem file_size_has_no_effect L w ev1 ev2 d1 d2 :
  (forall k, k <> str "body" -> dict_get ev1 k = dict_get ev2 k) ->
  request_json L (PDict ev1) (PDict d1) ->
  request_json L (PDict ev2) (PDict d2) ->
  (forall k, k <> str "file_size" -> dict_get d1 k = dict_get d2 k) ->
  handler L w (PDict ev1) = handler L w (PDict ev2).
Proof. exact (handler_ignores_file_size L w ev1 ev2 d1 d2). Qed.

(** Agreement of two explicit dicts off one key. *)
Ltac same_off_key k Hk :=
  cbn [dict_get];
  repeat match goal with
         | |- context [pystr_eqb ?a k] =>
             let E := fresh "E" in
             destruct (pystr_eqb a k) eqn:E;
             [ first [ reflexivity
                     | apply pystr_eqb_eq in E; symmetry in E; contradiction ] | ]
         end;
  reflexivity.

Lemma file_size_has_no_effect_witness :
  handler sample_lib sample_world
    (PDict (sample_items "/presigned-url" "Authorization" "s3cret"
              (json_object [member "file_name" "a b.txt"])))
  = handler sample_lib sample_world
      (PDict (sample_items "/presigned-url" "Authorization" "s3cret"
                (json_object [member "file_name" "a b.txt";
                              member "file_size" "huge"]))).
Proof.
  apply (file_size_has_no_effect sample_lib sample_world _ _
           [(str "file_name", PStr (str "a b.txt"))]
           [(str "file_name", PStr (str "a b.txt"));
            (str "file_size", PStr (str "huge"))]).
  - intros k Hk; unfold sample_items; same_off_key k Hk.
  - exists (PStr (json_object [member "file_name" "a b.txt"]));
      split; vm_compute; reflexivity.
  - exists (PStr (json_object [member "file_name" "a b.txt";
                               member "file_size" "huge"]));
      split; vm_compute; reflexivity.
  - intros k Hk; same_off_key k Hk.
Defined.

(** C9, the other case: a [file_size] the parser refuses.  The two requests
    differ only in the [file_size] member of the body; the one without it is
    answered 200, the one with an integer of 5000 digits 500, so that the
    responses differ, while a [file_size] of one digit changes nothing. *)
Lemma long_file_size_changes_the_answer :
  (forall k, k <> str "body" ->
     dict_get (sample_items "/presigned-url" "Authorization" "s3cret"
                 (json_object [member "file_name" "a b.txt"])) k
     = dict_get (sample_items "/presigned-url" "Authorization" "s3cret"
                   (sized_upload long_integer)) k)
  /\ statusCode
       (handler sample_lib_limited sample_world
          (PDict (sample_items "/presigned-url" "Authorization" "s3cret"
                    (json_object [member "file_name" "a b.txt"])))) = 200
  /\ handler sample_lib_limited sample_world
       (PDict (sample_items "/presigned-url" "Authorization" "s3cret"
                 (sized_upload long_integer)))
     = error_response sample_lib_limited 500 "Internal server error"
  /\ handler sample_lib_limited sample_world
       (PDict (sample_items "/presigned-url" "Authorization" "s3cret"
                 (json_object [member "file_name" "a b.txt"])))
     <> handler sample_lib_limited sample_world
          (PDict (sample_items "/presigned-url" "Authorization" "s3cret"
                    (sized_upload long_integer)))
  /\ handler sample_lib_limited sample_world
       (PDict (sample_items "/presigned-url" "Authorization" "s3cret"
                 (sized_upload (str "5"))))
     = handler sample_lib_limited sample_world
         (PDict (sample_items "/presigned-url" "Authorization" "s3cret"
                   (json_object [member "file_name" "a b.txt"]))).
Proof.
  split; [intros k Hk; unfold sample_items; same_off_key k Hk|].
  split; [vm_compute; reflexivity|].
  split; [vm_compute; reflexivity|].
  split; [|vm_compute; reflexivity].
  intros H; apply (f_equal statusCode) in H; vm_compute in H; discriminate H.
Qed.

(** ** The issued key (C5) *)

Lemma zfill_dec_length (width : nat) (n : Z) :
  List.length (zfill_dec width n) = width.
Proof.
  revert n; induction width as [|k IH]; intros n; simpl; [reflexivity|].
  rewrite List.length_app, IH; simpl; lia.
Qed.

Lemma zfill_dec_digits (width : nat) (n : Z) :
  forallb is_digit (zfill_dec width n) = true.
Proof.
  revert n; induction width as [|k IH]; intros n; cbn [zfill_dec];
    [reflexivity|].
  rewrite forallb_app, IH; cbn [forallb andb].
  unfold is_digit. pose proof (Z.mod_pos_bound n 10 ltac:(lia)).
  rewrite andb_true_r, andb_true_iff, !Z.leb_le; lia.
Qed.

Lemma zfill_hex_length (width : nat) (n : Z) :
  List.length (zfill_hex width n) = width.
Proof.
  revert n; induction width as [|k IH]; intros n; simpl; [reflexivity|].
  rewrite List.length_app, IH; simpl; lia.
Qed.

Lemma hex_lower_is_hex (d : Z) : 0 <= d < 16 -> is_hex_lower (hex_lower d) = true.
Proof.
  intros Hd; unfold is_hex_lower, hex_lower, is_digit.
  destruct (Z.ltb_spec d 10).
  - apply orb_true_iff; left. rewrite andb_true_iff, !Z.leb_le; lia.
  - apply orb_true_iff; right. rewrite andb_true_iff, !Z.leb_le; lia.
Qed.

Lemma zfill_hex_digits (width : nat) (n : Z) :
  forallb is_hex_lower (zfill_hex width n) = true.
Proof.
  revert n; induction width as [|k IH]; intros n; cbn [zfill_hex];
    [reflexivity|].
  rewrite forallb_app, IH; cbn [forallb andb].
  rewrite hex_lower_is_hex; [reflexivity|].
  apply Z.mod_pos_bound; lia.
Qed.

Lemma forallb_firstn {A} (p : A -> bool) (k : nat) (l : list A) :
  forallb p l = true -> forallb p (firstn k l) = true.
Proof.
  revert l; induction k as [|k IH]; intros [|x l]; simpl; try reflexivity.
  rewrite !andb_true_iff; intros [Hx Hl]; split; [exact Hx | apply IH; exact Hl].
Qed.

(** The first eight characters of a UUID's text are the first eight of its
    32 hexadecimal digits. *)
Lemma unique_id_is_hex_prefix (int : Z) :
  slice_to 8 (uuid_str int) = firstn 8 (zfill_hex 32 int).
Proof.
  unfold slice_to, uuid_str; cbv zeta.
  rewrite firstn_app, firstn_firstn.
  rewrite List.length_firstn, zfill_hex_length.
  change (Nat.min 8 8) with 8%nat; change (Nat.min 8 32) with 8%nat.
  change (8 - 8)%nat with 0%nat; simpl firstn at 2.
  apply app_nil_r.
Qed.

Lemma zfill_hex_prefix (a b : nat) (n : Z) :
  firstn a (zfill_hex (a + b) n) = zfill_hex a (n / 16 ^ Z.of_nat b).
Proof.
  revert n; induction b as [|b IH]; intros n.
  - rewrite Nat.add_0_r, Z.pow_0_r, Z.div_1_r.
    apply firstn_all2. rewrite zfill_hex_length; lia.
  - rewrite Nat.add_succ_r; cbn [zfill_hex].
    rewrite firstn_app, zfill_hex_length.
    replace (a - (a + b))%nat with 0%nat by lia.
    cbn [firstn]. rewrite app_nil_r, IH.
    rewrite Zdiv.Zdiv_Zdiv by lia.
    rewrite Nat2Z.inj_succ, Z.pow_succ_r by lia. reflexivity.
Qed.

Lemma high_bit_clear (a k m : Z) :
  0 <= a < 2 ^ 16 -> 0 <= k <= 80 -> 96 <= m ->
  Z.testbit (Z.shiftl a k) m = false.
Proof.
  intros Ha Hk Hm. rewrite Z.shiftl_spec by lia.
  destruct (Z.eq_dec a 0) as [->|Hnz]; [apply Z.testbit_0_l|].
  apply Z.bits_above_log2; [lia|].
  assert (Z.log2 a < 16) by (apply Z.log2_lt_pow2; lia). lia.
Qed.

(** Setting the version and variant bits leaves the bits from 96 up alone. *)
Lemma uuid4_high_bits (random : Z) :
  uuid4 random / 2 ^ 96 = (random mod 2 ^ 128) / 2 ^ 96.
Proof.
  rewrite <- !Z.shiftr_div_pow2 by lia.
  apply Z.bits_inj'; intros n Hn.
  rewrite !Z.shiftr_spec by lia. unfold uuid4; cbv zeta.
  rewrite Z.lor_spec, Z.land_spec, Z.lor_spec, Z.land_spec.
  rewrite !Z.lnot_spec by lia.
  rewrite !high_bit_clear by lia.
  cbn [negb]. rewrite !andb_true_r, !orb_false_r. reflexivity.
Qed.

(** The digits written are those of the number. *)
Lemma decimal_value_from (s : pystr) (v : Z) :
  fold_left (fun v c => 10 * v + (c - 48)) s v
  = v * 10 ^ Z.of_nat (List.length s) + decimal_value s.
Proof.
  unfold decimal_value; revert v; induction s as [|c s IH]; intros v;
    cbn [fold_left List.length].
  - change (Z.of_nat 0) with 0; rewrite Z.pow_0_r; lia.
  - rewrite IH, (IH (10 * 0 + (c - 48))).
    rewrite Nat2Z.inj_succ, Z.pow_succ_r by lia. ring.
Qed.

Lemma decimal_value_app (a b : pystr) :
  decimal_value (a ++ b)
  = decimal_value a * 10 ^ Z.of_nat (List.length b) + decimal_value b.
Proof.
  unfold decimal_value at 1; rewrite fold_left_app.
  apply (decimal_value_from b).
Qed.

Lemma decimal_value_zfill (width : nat) (n : Z) :
  decimal_value (zfill_dec width n) = n mod 10 ^ Z.of_nat width.
Proof.
  revert n; induction width as [|k IH]; intros n; cbn [zfill_dec].
  - change (Z.of_nat 0) with 0; rewrite Z.pow_0_r, Z.mod_1_r; reflexivity.
  - rewrite decimal_value_app, IH.
    rewrite Nat2Z.inj_succ, Z.pow_succ_r by lia.
    rewrite (Z.rem_mul_r n 10 (10 ^ Z.of_nat k)) by lia.
    unfold decimal_value; cbn [fold_left List.length].
    change (Z.of_nat 1) with 1; rewrite Z.pow_1_r. lia.
Qed.

Lemma hex_value_from (s : pystr) (v : Z) :
  fold_left (fun v c => 16 * v + hex_digit_value c) s v
  = v * 16 ^ Z.of_nat (List.length s) + hex_value s.
Proof.
  unfold hex_value; revert v; induction s as [|c s IH]; intros v;
    cbn [fold_left List.length].
  - change (Z.of_nat 0) with 0; rewrite Z.pow_0_r; lia.
  - rewrite IH, (IH (16 * 0 + hex_digit_value c)).
    rewrite Nat2Z.inj_succ, Z.pow_succ_r by lia. ring.
Qed.

Lemma hex_digit_value_hex_lower (d : Z) :
  0 <= d < 16 -> hex_digit_value (hex_lower d) = d.
Proof.
  intros Hd; unfold hex_digit_value, hex_lower, is_digit.
  destruct (Z.ltb_spec d 10).
  - replace ((48 <=? 48 + d) && (48 + d <=? 57)) with true; [lia|].
    symmetry; rewrite andb_true_iff, !Z.leb_le; lia.
  - replace ((48 <=? 87 + d) && (87 + d <=? 57)) with false; [lia|].
    symmetry; rewrite andb_false_iff, !Z.leb_gt; lia.
Qed.

Lemma hex_value_zfill (width : nat) (n : Z) :
  hex_value (zfill_hex width n) = n mod 16 ^ Z.of_nat width.
Proof.
  revert n; induction width as [|k IH]; intros n; cbn [zfill_hex].
  - change (Z.of_nat 0) with 0; rewrite Z.pow_0_r, Z.mod_1_r; reflexivity.
  - unfold hex_value at 1; rewrite fold_left_app; fold (hex_value (zfill_hex k (n / 16))).
    rewrite IH; cbn [fold_left].
    rewrite hex_digit_value_hex_lower by (apply Z.mod_pos_bound; lia).
    rewrite Nat2Z.inj_succ, Z.pow_succ_r by lia.
    rewrite (Z.rem_mul_r n 16 (16 ^ Z.of_nat k)) by lia. lia.
Qed.

(** From year 1000 on the year has its four digits. *)
Lemma strftime_Y_four_digits (y : Z) : 1000 <= y -> strftime_Y y = zfill_dec 4 y.
Proof.
  intros Hy; unfold strftime_Y.
  destruct (Z.ltb_spec y 10); [lia|].
  destruct (Z.ltb_spec y 100); [lia|].
  destruct (Z.ltb_spec y 1000); [lia|reflexivity].
Qed.

(** The key of line 155 writes the first clock reading and the first four
    of the sixteen random octets. *)
Lemma issued_key_of_clock_and_random (w : world) (file_name : pystr) :
  datetime_fields (now w 0) ->
  1000 <= year (now w 0) ->
  0 <= urandom16 w < 2 ^ 128 ->
  file_key_of (now w 0) (urandom16 w / 2 ^ 96) file_name
    (issued_key w file_name).
Proof.
  intros (Hy & Hm & Hd & Hh & Hmi & Hs & _) Hy4 Hr.
  set (dt := now w 0) in *.
  exists (zfill_dec 4 (year dt) ++ zfill_dec 2 (month dt) ++ zfill_dec 2 (day dt)),
         (zfill_dec 2 (hour dt) ++ zfill_dec 2 (minute dt)
          ++ zfill_dec 2 (second dt)),
         (firstn 8 (zfill_hex 32 (uuid4 (urandom16 w)))).
  repeat apply conj.
  - unfold issued_key, strftime_Ymd_HMS; fold dt.
    rewrite (strftime_Y_four_digits _ Hy4).
    rewrite unique_id_is_hex_prefix, <- !app_assoc; reflexivity.
  - rewrite !List.length_app, !zfill_dec_length; reflexivity.
  - rewrite !forallb_app, !zfill_dec_digits; reflexivity.
  - rewrite !decimal_value_app, !decimal_value_zfill, !List.length_app,
      !zfill_dec_length.
    change (10 ^ Z.of_nat (2 + 2)) with 10000.
    change (10 ^ Z.of_nat 2) with 100.
    change (10 ^ Z.of_nat 4) with 10000.
    rewrite !Z.mod_small by lia. lia.
  - rewrite !List.length_app, !zfill_dec_length; reflexivity.
  - rewrite !forallb_app, !zfill_dec_digits; reflexivity.
  - rewrite !decimal_value_app, !decimal_value_zfill, !List.length_app,
      !zfill_dec_length.
    change (10 ^ Z.of_nat (2 + 2)) with 10000.
    change (10 ^ Z.of_nat 2) with 100.
    rewrite !Z.mod_small by lia. lia.
  - rewrite List.length_firstn, zfill_hex_length; reflexivity.
  - apply forallb_firstn, zfill_hex_digits.
  - pose proof (zfill_hex_prefix 8 24 (uuid4 (urandom16 w))) as H.
    change (8 + 24)%nat with 32%nat in H.
    change (16 ^ Z.of_nat 24) with (2 ^ 96) in H.
    rewrite H, uuid4_high_bits, hex_value_zfill.
    rewrite (Z.mod_small (urandom16 w)) by exact Hr.
    apply Z.mod_small.
    change (16 ^ Z.of_nat 8) with (2 ^ 32).
    split; [apply Z.div_pos; lia|].
    apply Z.div_lt_upper_bound; [lia|].
    change (2 ^ 96 * 2 ^ 32) with (2 ^ 128); lia.
Qed.

(** Such a key has the shape [uploads/<8 digits>_<6 digits>_<8 hex>_<name>]. *)
Lemma file_key_of_pattern dt bits (file_name key : pystr) :
  file_key_of dt bits file_name key -> file_key_pattern file_name key.
Proof.
  intros (date & time & id & Hk & Hd1 & Hd2 & _ & Ht1 & Ht2 & _ & Hi1 & Hi2 & _).
  exists date, time, id. repeat apply conj; assumption.
Qed.

(** A successful answer to /presigned-url comes from the last [return] of
    the [try] block: the file name was quoted and both credentials were
    issued. *)
Lemma presigned_url_success L w event bucket secret_arn d file_name :
  routed event "/presigned-url" "POST" ->
  configured w bucket secret_arn ->
  authenticate_request L w event secret_arn = Ok Authenticated ->
  request_json L event (PDict d) ->
  dict_get d (str "file_name") = Some (PStr file_name) ->
  file_name <> [] ->
  statusCode (handler L w event) = 200 ->
  exists encoded,
    quote (PStr file_name) [] = Ok encoded
    /\ issuance L w bucket file_name encoded (handler L w event).
Proof.
  intros Hr Hcfg Hauth Hjson Hf Hne.
  rewrite (handler_presigned_url L w event Hr). unfold generate_presigned_url.
  prelude Hcfg Hauth. parsed Hjson.
  cbn [py_get bind]. rewrite Hf.
  destruct file_name as [|c fn]; [contradiction|].
  cbn [truthy negb format_value].
  destruct (boto3_client w (str "s3")) as [[]|e0];
    cbn [bind try_except_Exception];
    [|intros H; discriminate H].
  destruct (quote (PStr (c :: fn)) []) as [encoded|e1];
    cbn [bind try_except_Exception];
    [|intros H; discriminate H].
  match goal with
  | |- context [s3_generate_presigned_post ?a ?b ?c ?d ?e ?f] =>
      destruct (s3_generate_presigned_post a b c d e f) as [post|e2] eqn:Hpost
  end; cbn [bind try_except_Exception]; [|intros H; discriminate H].
  match goal with
  | |- context [s3_generate_presigned_url ?a ?b ?c ?d] =>
      destruct (s3_generate_presigned_url a b c d) as [put|e3] eqn:Hput
  end; cbn [bind try_except_Exception]; [|intros H; discriminate H].
  destruct (py_getitem post (str "url")) as [url|e4];
    cbn [bind try_except_Exception]; [|intros H; discriminate H].
  destruct (py_getitem post (str "fields")) as [fields|e5];
    cbn [bind try_except_Exception]; [|intros H; discriminate H].
  intros _. exists encoded; split; [reflexivity|].
  unfold issuance.
  do 7 eexists.
  split; [exact Hpost|]. split; [reflexivity|].
  split; [exact Hput|]. split; [reflexivity|].
  split; [reflexivity|]. split; [reflexivity|].
  split; [reflexivity|]. split; reflexivity.
Qed.

(** C5. When an authenticated request to /presigned-url with a non-empty
    [str] file name is answered 200, the [file_key] of the answer is
    [uploads/<date>_<time>_<id>_<file_name>]: [date] is eight digits that
    write the day of the first clock reading as [YYYYMMDD], [time] six digits
    that write its time of day as [HHMMSS], and [id] eight lower-case
    hexadecimal digits that write the first four of the sixteen random
    octets.  The clock shows a year of four digits. *)
Theorem returned_file_key_matches_pattern L w event bucket secret_arn d file_name :
  routed event "/presigned-url" "POST" ->
  configured w bucket secret_arn ->
  authenticate_request L w event secret_arn = Ok Authenticated ->
  request_json L event (PDict d) ->
  dict_get d (str "file_name") = Some (PStr file_name) ->
  file_name <> [] ->
  datetime_fields (now w 0) ->
  1000 <= year (now w 0) ->
  0 <= urandom16 w < 2 ^ 128 ->
  statusCode (handler L w event) = 200 ->
  exists payload key,
    body (handler L w event) = json_dumps L (PDict payload)
    /\ dict_get payload (str "file_key") = Some (PStr key)
    /\ file_key_of (now w 0) (urandom16 w / 2 ^ 96) file_name key
    /\ file_key_pattern file_name key.
Proof.
  intros Hr Hcfg Hauth Hjson Hf Hne Hdt Hy4 Hrand H200.
  destruct (presigned_url_success L w event bucket secret_arn d file_name
              Hr Hcfg Hauth Hjson Hf Hne H200)
    as (encoded & _ & fields & conditions & params & metadata & post & put
        & payload & _ & _ & _ & _ & _ & _ & Hresp & Hkey & _).
  pose proof (issued_key_of_clock_and_random w file_name Hdt Hy4 Hrand) as Hof.
  exists payload, (issued_key w file_name).
  rewrite Hresp; split; [reflexivity|]. split; [exact Hkey|].
  split; [exact Hof | exact (file_key_of_pattern _ _ _ _ Hof)].
Qed.

Lemma returned_file_key_matches_pattern_witness :
  exists payload key,
    body (handler sample_lib sample_world
            (sample_upload_request "Authorization" "s3cret"))
    = json_dumps sample_lib (PDict payload)
    /\ dict_get payload (str "file_key") = Some (PStr key)
    /\ file_key_of (now sample_world 0) (urandom16 sample_world / 2 ^ 96)
         (str "a b.txt") key
    /\ file_key_pattern (str "a b.txt") key.
Proof.
  apply (returned_file_key_matches_pattern sample_lib sample_world
           (sample_upload_request "Authorization" "s3cret")
           (str "jnuc-uploads") (str "arn:aws:secret")
           [(str "file_name", PStr (str "a b.txt"))] (str "a b.txt")).
  - split; vm_compute; reflexivity.
  - repeat apply conj; vm_compute; try reflexivity; discriminate.
  - vm_compute; reflexivity.
  - exists (PStr (json_object [member "file_name" "a b.txt"]));
      split; vm_compute; reflexivity.
  - vm_compute; reflexivity.
  - vm_compute; discriminate.
  - unfold datetime_fields; cbn; lia.
  - cbn; lia.
  - cbn; lia.
  - vm_compute; reflexivity.
Defined.

(** Before year 1000 the year is written with fewer digits, and the
    timestamp with it. *)
Lemma timestamp_before_year_1000 :
  strftime_Ymd_HMS {| year := 999; month := 1; day := 2;
                      hour := 3; minute := 4; second := 5;
                      microsecond := 0; tz_minutes := None |}
  = str "9990102_030405".
Proof. vm_compute; reflexivity. Qed.

(** ** UTF-8: decoding what was encoded *)

(** A property checked on every integer below [n] holds below [n]. *)
Lemma forall_below (P : Z -> bool) (n : nat) :
  forallb P (map Z.of_nat (seq 0 n)) = true ->
  forall x, 0 <= x < Z.of_nat n -> P x = true.
Proof.
  intros H x Hx. rewrite forallb_forall in H. apply H.
  apply in_map_iff. exists (Z.to_nat x). split; [lia|].
  apply in_seq; lia.
Qed.

Lemma lor_lead (lead : Z) (n : nat) (x : Z) :
  forallb (fun x => Z.lor lead x =? lead + x) (map Z.of_nat (seq 0 n)) = true ->
  0 <= x < Z.of_nat n -> Z.lor lead x = lead + x.
Proof.
  intros H Hx. apply Z.eqb_eq.
  exact (forall_below (fun x => Z.lor lead x =? lead + x) n H x Hx).
Qed.

Lemma shiftr_6 c : Z.shiftr c 6 = c / 64.
Proof. rewrite Z.shiftr_div_pow2 by lia; reflexivity. Qed.

Lemma shiftr_12 c : Z.shiftr c 12 = c / 4096.
Proof. rewrite Z.shiftr_div_pow2 by lia; reflexivity. Qed.

Lemma shiftr_18 c : Z.shiftr c 18 = c / 262144.
Proof. rewrite Z.shiftr_div_pow2 by lia; reflexivity. Qed.

Lemma land_63 c : Z.land c 63 = c mod 64.
Proof. change 63 with (Z.ones 6). rewrite Z.land_ones by lia; reflexivity. Qed.

Ltac divmod := Z.div_mod_to_equations; lia.

(** The octets of a code point, in arithmetic. *)
Lemma utf8_encode_cp_arith (c : Z) :
  utf8_encode_cp c =
  if c <? 0 then None
  else if c <? 128 then Some [c]
  else if c <? 2048 then Some [192 + c / 64; 128 + c mod 64]
  else if c <? 65536 then
    if surrogate c then None
    else Some [224 + c / 4096; 128 + (c / 64) mod 64; 128 + c mod 64]
  else if c <? 1114112 then
    Some [240 + c / 262144; 128 + (c / 4096) mod 64;
          128 + (c / 64) mod 64; 128 + c mod 64]
  else None.
Proof.
  unfold utf8_encode_cp.
  rewrite !shiftr_6, !shiftr_12, !shiftr_18, !land_63.
  destruct (Z.ltb_spec c 0); [reflexivity|].
  destruct (Z.ltb_spec c 128); [reflexivity|].
  assert (Hlow : forall x, Z.lor 128 (x mod 64) = 128 + x mod 64).
  { intros x. apply (lor_lead 128 64); [vm_compute; reflexivity|].
    apply Z.mod_pos_bound; lia. }
  rewrite !Hlow.
  destruct (Z.ltb_spec c 2048).
  { rewrite (lor_lead 192 32 (c / 64) ltac:(vm_compute; reflexivity)
               ltac:(divmod)).
    reflexivity. }
  destruct (Z.ltb_spec c 65536).
  { rewrite (lor_lead 224 16 (c / 4096) ltac:(vm_compute; reflexivity)
               ltac:(divmod)).
    reflexivity. }
  destruct (Z.ltb_spec c 1114112); [|reflexivity].
  rewrite (lor_lead 240 8 (c / 262144) ltac:(vm_compute; reflexivity)
             ltac:(divmod)).
  reflexivity.
Qed.

Lemma some_eq {A} (a b : A) : Some a = Some b -> a = b.
Proof. congruence. Qed.

Lemma ok_eq {A} (a b : A) : Ok a = Ok b -> a = b.
Proof. congruence. Qed.

Ltac octets := repeat (apply Forall_cons; [divmod|]); apply Forall_nil.

Lemma utf8_encode_cp_octets (c : Z) (bs : pybytes) :
  utf8_encode_cp c = Some bs -> Forall octet bs.
Proof.
  rewrite utf8_encode_cp_arith; unfold octet.
  destruct (Z.ltb_spec c 0); [discriminate|].
  destruct (Z.ltb_spec c 128);
    [intros E; apply some_eq in E; subst bs; octets|].
  destruct (Z.ltb_spec c 2048);
    [intros E; apply some_eq in E; subst bs; octets|].
  destruct (Z.ltb_spec c 65536).
  { destruct (surrogate c); [discriminate|].
    intros E; apply some_eq in E; subst bs; octets. }
  destruct (Z.ltb_spec c 1114112); [|discriminate].
  intros E; apply some_eq in E; subst bs; octets.
Qed.

(** Decides the comparisons of the goal, closing the impossible cases. *)
Ltac decide_tests :=
  repeat match goal with
         | |- context [?a <? ?b] =>
             destruct (Z.ltb_spec a b); try (exfalso; divmod)
         | |- context [?a <=? ?b] =>
             destruct (Z.leb_spec a b); try (exfalso; divmod)
         | |- context [?a =? ?b] =>
             destruct (Z.eqb_spec a b); try (exfalso; divmod)
         end;
  cbn [negb orb andb].

(** The scan reads back the octets of one code point, whatever follows. *)
Lemma utf8_scan_encode_cp (c : Z) (bs rest : pybytes) :
  utf8_encode_cp c = Some bs ->
  utf8_scan (bs ++ rest) = Some c :: utf8_scan rest.
Proof.
  rewrite utf8_encode_cp_arith.
  destruct (Z.ltb_spec c 0); [discriminate|].
  destruct (Z.ltb_spec c 128).
  { intros E; apply some_eq in E; subst bs; cbn [app utf8_scan].
    decide_tests; reflexivity. }
  destruct (Z.ltb_spec c 2048).
  { intros E; apply some_eq in E; subst bs; cbn [app utf8_scan].
    unfold is_continuation; decide_tests; do 2 f_equal; divmod. }
  destruct (Z.ltb_spec c 65536).
  { unfold surrogate.
    destruct (Z.leb_spec 55296 c), (Z.leb_spec c 57343); cbn [andb];
      try discriminate;
      intros E; apply some_eq in E; subst bs; cbn [app utf8_scan];
      unfold is_continuation; decide_tests; do 2 f_equal; divmod. }
  destruct (Z.ltb_spec c 1114112); [|discriminate].
  intros E; apply some_eq in E; subst bs; cbn [app utf8_scan].
  unfold is_continuation; decide_tests; do 2 f_equal; divmod.
Qed.

Lemma utf8_encode_octets (s : pystr) (bs : pybytes) :
  utf8_encode s = Ok bs -> Forall octet bs.
Proof.
  revert bs; induction s as [|c s IH]; intros bs; cbn [utf8_encode].
  - intros E; apply ok_eq in E; subst bs; constructor.
  - destruct (utf8_encode_cp c) as [b|] eqn:Hc; [|discriminate].
    destruct (utf8_encode s) as [rest|]; cbn [bind]; [|discriminate].
    intros E; apply ok_eq in E; subst bs. apply Forall_app; split;
      [eapply utf8_encode_cp_octets; eassumption | apply IH; reflexivity].
Qed.

Lemma utf8_scan_encode (s : pystr) (bs : pybytes) :
  utf8_encode s = Ok bs -> utf8_scan bs = map Some s.
Proof.
  revert bs; induction s as [|c s IH]; intros bs; cbn [utf8_encode].
  - intros E; apply ok_eq in E; subst bs; reflexivity.
  - destruct (utf8_encode_cp c) as [b|] eqn:Hc; [|discriminate].
    destruct (utf8_encode s) as [rest|]; cbn [bind]; [|discriminate].
    intros E; apply ok_eq in E; subst bs.
    rewrite (utf8_scan_encode_cp c b rest Hc), (IH rest eq_refl).
    reflexivity.
Qed.

(** Decoding with replacement gives back an encoded string unchanged. *)
Lemma utf8_decode_encode (s : pystr) (bs : pybytes) :
  utf8_encode s = Ok bs -> utf8_decode_replace bs = s.
Proof.
  intros H; unfold utf8_decode_replace.
  rewrite (utf8_scan_encode s bs H), map_map. apply map_id.
Qed.

(** ** Quoting and unquoting *)

Lemma hexval_hex_upper (d : Z) : 0 <= d < 16 -> hexval (hex_upper d) = Some d.
Proof.
  intros Hd.
  pose proof (forall_below
    (fun d => match hexval (hex_upper d) with
              | Some x => x =? d
              | None => false
              end) 16 ltac:(vm_compute; reflexivity) d Hd) as H.
  cbv beta in H. destruct (hexval (hex_upper d)); [|discriminate].
  apply Z.eqb_eq in H; subst; reflexivity.
Qed.

Lemma always_safe_ascii (b : Z) : always_safe b = true -> 0 <= b < 128.
Proof.
  unfold always_safe, is_upper, is_lower, is_digit.
  rewrite !orb_true_iff, !andb_true_iff, !Z.leb_le, !Z.eqb_eq; lia.
Qed.

Lemma always_safe_not_percent (b : Z) : always_safe b = true -> (b =? 37) = false.
Proof.
  intros H. destruct (Z.eqb_spec b 37) as [->|]; [|reflexivity].
  vm_compute in H; discriminate H.
Qed.

Lemma is_safe_nil (b : Z) : is_safe [] b = always_safe b.
Proof. unfold is_safe; cbn [existsb]. rewrite andb_false_r; apply orb_false_r. Qed.

Lemma unquote_quote_byte (b : Z) (rest : pystr) :
  octet b ->
  unquote_to_bytes (quote_byte [] b ++ rest) = b :: unquote_to_bytes rest.
Proof.
  unfold octet, quote_byte; intros Hb. rewrite is_safe_nil.
  destruct (always_safe b) eqn:S; cbn [app unquote_to_bytes].
  - rewrite (always_safe_not_percent b S); reflexivity.
  - rewrite Z.eqb_refl, !hexval_hex_upper by divmod. f_equal; divmod.
Qed.

Lemma unquote_quote_bytes (bs : pybytes) :
  Forall octet bs -> unquote_to_bytes (quote_from_bytes bs []) = bs.
Proof.
  unfold quote_from_bytes; induction 1 as [|b bs Hb _ IH]; cbn [flat_map];
    [reflexivity|].
  rewrite (unquote_quote_byte b _ Hb), IH; reflexivity.
Qed.

Lemma hex_upper_ascii (d : Z) : 0 <= d < 16 -> 0 <= hex_upper d < 128.
Proof. unfold hex_upper; destruct (Z.ltb_spec d 10); lia. Qed.

Lemma quote_from_bytes_ascii (bs : pybytes) :
  Forall octet bs -> Forall (fun c => 0 <= c < 128) (quote_from_bytes bs []).
Proof.
  unfold quote_from_bytes; induction 1 as [|b bs Hb _ IH]; cbn [flat_map];
    [constructor|].
  apply Forall_app; split; [|exact IH].
  unfold quote_byte, octet in *; rewrite is_safe_nil.
  destruct (always_safe b) eqn:S.
  - apply Forall_cons; [apply always_safe_ascii; exact S | apply Forall_nil].
  - apply Forall_cons; [lia|].
    apply Forall_cons; [apply hex_upper_ascii; divmod|].
    apply Forall_cons; [apply hex_upper_ascii; divmod | apply Forall_nil].
Qed.

Lemma unquote_parts_ascii (q rev_chunk : pystr) :
  Forall (fun c => 0 <= c < 128) q ->
  unquote_parts q rev_chunk = unquote_chunk (rev q ++ rev_chunk).
Proof.
  intros H; revert rev_chunk; induction H as [|c q Hc _ IH]; intros rev_chunk;
    cbn [unquote_parts rev app]; [reflexivity|].
  destruct (Z.leb_spec 0 c); [|lia]. destruct (Z.ltb_spec c 128); [|lia].
  cbn [andb]. rewrite IH, <- app_assoc; reflexivity.
Qed.

Lemma unquote_to_bytes_plain (q : pystr) :
  existsb (Z.eqb 37) q = false -> unquote_to_bytes q = q.
Proof.
  induction q as [|c q IH]; cbn [existsb unquote_to_bytes]; [reflexivity|].
  rewrite orb_false_iff, (Z.eqb_sym 37 c); intros [-> Hq].
  rewrite (IH Hq); reflexivity.
Qed.

Lemma utf8_scan_ascii (q : pybytes) :
  Forall (fun c => 0 <= c < 128) q -> utf8_scan q = map Some q.
Proof.
  induction 1 as [|c q Hc _ IH]; cbn [utf8_scan map]; [reflexivity|].
  destruct (Z.ltb_spec c 128); [|lia]. rewrite IH; reflexivity.
Qed.

(** On an ASCII string the shortcut for strings without [%] changes nothing. *)
Lemma unquote_ascii (q : pystr) :
  Forall (fun c => 0 <= c < 128) q ->
  unquote (PStr q) = Ok (utf8_decode_replace (unquote_to_bytes q)).
Proof.
  intros Hq; unfold unquote.
  destruct (existsb (Z.eqb 37) q) eqn:E; cbn [negb]; f_equal.
  - rewrite (unquote_parts_ascii q [] Hq); unfold unquote_chunk.
    rewrite app_nil_r, rev_involutive; reflexivity.
  - rewrite (unquote_to_bytes_plain q E); unfold utf8_decode_replace.
    rewrite (utf8_scan_ascii q Hq), map_map; symmetry; apply map_id.
Qed.

(** [unquote(quote(s, safe=''))] is [s]. *)
Lemma unquote_quote (s encoded : pystr) :
  quote (PStr s) [] = Ok encoded -> unquote (PStr encoded) = Ok s.
Proof.
  unfold quote. destruct s as [|c s].
  - intros E; apply ok_eq in E; subst encoded; reflexivity.
  - destruct (utf8_encode (c :: s)) as [bs|] eqn:Hbs; cbn [bind]; [|discriminate].
    intros E; apply ok_eq in E; subst encoded.
    pose proof (utf8_encode_octets _ _ Hbs) as Hoct.
    rewrite (unquote_ascii _ (quote_from_bytes_ascii bs Hoct)).
    rewrite (unquote_quote_bytes bs Hoct), (utf8_decode_encode _ _ Hbs).
    reflexivity.
Qed.

(** Every string of Unicode scalar values can be quoted. *)
Lemma quote_total (s : pystr) :
  Forall scalar_value s -> exists encoded, quote (PStr s) [] = Ok encoded.
Proof.
  intros Hs.
  assert (He : exists bs, utf8_encode s = Ok bs).
  { induction Hs as [|c s [Hc Hsur] _ [bs IH]]; cbn [utf8_encode];
      [eexists; reflexivity|].
    rewrite utf8_encode_cp_arith, Hsur. unfold code_point in Hc.
    destruct (Z.ltb_spec c 0); [lia|].
    destruct (Z.ltb_spec c 128); [rewrite IH; eexists; reflexivity|].
    destruct (Z.ltb_spec c 2048); [rewrite IH; eexists; reflexivity|].
    destruct (Z.ltb_spec c 65536); [rewrite IH; eexists; reflexivity|].
    destruct (Z.ltb_spec c 1114112); [rewrite IH; eexists; reflexivity|lia]. }
  destruct He as [bs Hbs]; unfold quote.
  destruct s; [eexists; reflexivity|].
  rewrite Hbs; eexists; reflexivity.
Qed.

(** On a [str], [unquote] does not raise. *)
Lemma unquote_str_returns (s : pystr) : exists r, unquote (PStr s) = Ok r.
Proof. unfold unquote; destruct (negb _); eexists; reflexivity. Qed.

(** ** The stored file name (C4) *)

Lemma dict_get_set {V} (d : dict V) (k : pystr) (v : V) :
  dict_get (dict_set d k v) k = Some v.
Proof.
  induction d as [|[k' v'] d IH]; cbn [dict_set dict_get].
  - rewrite pystr_eqb_refl; reflexivity.
  - destruct (pystr_eqb k' k) eqn:E; cbn [dict_get]; rewrite E;
      [reflexivity | exact IH].
Qed.

Lemma decode_original_filename_decoded (md : dict pyval) stored decoded :
  dict_get md (str "original-filename") = Some stored ->
  unquote stored = Ok decoded ->
  decode_original_filename (PDict md)
  = PDict (dict_set md (str "original-filename") (PStr decoded)).
Proof.
  intros Hs Hu; unfold decode_original_filename; rewrite Hs, Hu; reflexivity.
Qed.

Lemma decode_original_filename_kept (md : dict pyval) stored e :
  dict_get md (str "original-filename") = Some stored ->
  unquote stored = Raise e ->
  decode_original_filename (PDict md) = PDict md.
Proof.
  intros Hs Hu; unfold decode_original_filename; rewrite Hs, Hu; reflexivity.
Qed.

(** The answer to /confirm-upload for an object the store holds. *)
Lemma confirm_upload_success
  L w event bucket secret_arn d file_key ho md size type modified :
  routed event "/confirm-upload" "POST" ->
  configured w bucket secret_arn ->
  authenticate_request L w event secret_arn = Ok Authenticated ->
  request_json L event (PDict d) ->
  dict_get d (str "file_key") = Some (PStr file_key) ->
  file_key <> [] ->
  boto3_client w (str "s3") = Ok tt ->
  s3_head_object w bucket file_key = Ok ho ->
  Metadata ho = Some (PDict md) ->
  ContentLength ho = Some size ->
  ContentType ho = Some type ->
  LastModified ho = Some modified ->
  exists payload,
    handler L w event
    = {| statusCode := 200;
         headers := standard_headers;
         body := json_dumps L (PDict payload) |}
    /\ dict_get payload (str "metadata")
       = Some (decode_original_filename (PDict md)).
Proof.
  intros Hr Hcfg Hauth Hjson Hk Hne Hc Hh Hm Hsz Hty Hlm.
  rewrite (handler_confirm_upload L w event Hr). unfold confirm_upload.
  prelude Hcfg Hauth. parsed Hjson.
  cbn [py_get bind]. rewrite Hk.
  destruct file_key as [|c k]; [contradiction|].
  cbn [truthy negb]. rewrite Hc; cbn [bind]. rewrite Hh; cbn [bind].
  rewrite Hm, Hsz, Hty, Hlm; cbn [py_copy head_getitem bind try_except_Exception].
  eexists; split; reflexivity.
Qed.

(** X25. A file name that [quote(file_name, safe='')] turns into [encoded]
    is stored as [encoded] by a successful issuance; [unquote] turns
    [encoded] back into the file name, and confirmation answers 200 whatever
    the object's stored name is and shows the file name for an object stored
    with [encoded]. *)
Theorem original_filename_round_trip
  L w bucket secret_arn file_name encoded :
  configured w bucket secret_arn ->
  quote (PStr file_name) [] = Ok encoded ->
  (forall event d,
      routed event "/presigned-url" "POST" ->
      authenticate_request L w event secret_arn = Ok Authenticated ->
      request_json L event (PDict d) ->
      dict_get d (str "file_name") = Some (PStr file_name) ->
      file_name <> [] ->
      statusCode (handler L w event) = 200 ->
      issuance L w bucket file_name encoded (handler L w event))
  /\ unquote (PStr encoded) = Ok file_name
  /\ (forall event d file_key ho md stored size type modified,
      routed event "/confirm-upload" "POST" ->
      authenticate_request L w event secret_arn = Ok Authenticated ->
      request_json L event (PDict d) ->
      dict_get d (str "file_key") = Some (PStr file_key) ->
      file_key <> [] ->
      boto3_client w (str "s3") = Ok tt ->
      s3_head_object w bucket file_key = Ok ho ->
      Metadata ho = Some (PDict md) ->
      dict_get md (str "original-filename") = Some stored ->
      ContentLength ho = Some size ->
      ContentType ho = Some type ->
      LastModified ho = Some modified ->
      exists payload shown,
        handler L w event
        = {| statusCode := 200;
             headers := standard_headers;
             body := json_dumps L (PDict payload) |}
        /\ dict_get payload (str "metadata") = Some (PDict shown)
        /\ (stored = PStr encoded ->
            dict_get shown (str "original-filename") = Some (PStr file_name))).
Proof.
  intros Hcfg Hq. split; [|split].
  - intros event d Hr Hauth Hjson Hf Hne H200.
    destruct (presigned_url_success L w event bucket secret_arn d file_name
                Hr Hcfg Hauth Hjson Hf Hne H200) as (enc & Hq' & Hi).
    rewrite Hq in Hq'. apply ok_eq in Hq'; subst enc. exact Hi.
  - exact (unquote_quote file_name encoded Hq).
  - intros event d file_key ho md stored size type modified
           Hr Hauth Hjson Hk Hne Hc Hh Hm Hs Hsz Hty Hlm.
    destruct (confirm_upload_success L w event bucket secret_arn d file_key ho
                md size type modified Hr Hcfg Hauth Hjson Hk Hne Hc Hh Hm Hsz
                Hty Hlm) as (payload & Hresp & Hmeta).
    destruct (unquote stored) as [decoded|e] eqn:Hu.
    + exists payload,
        (dict_set md (str "original-filename") (PStr decoded)).
      rewrite (decode_original_filename_decoded md stored decoded Hs Hu) in Hmeta.
      split; [exact Hresp|]. split; [exact Hmeta|].
      intros ->. rewrite (unquote_quote file_name encoded Hq) in Hu.
      apply ok_eq in Hu; subst decoded. apply dict_get_set.
    + exists payload, md.
      rewrite (decode_original_filename_kept md stored e Hs Hu) in Hmeta.
      split; [exact Hresp|]. split; [exact Hmeta|].
      intros ->. rewrite (unquote_quote file_name encoded Hq) in Hu.
      discriminate Hu.
Qed.

Lemma original_filename_round_trip_witness :
  issuance sample_lib sample_world (str "jnuc-uploads") (str "a b.txt")
    (str "a%20b.txt")
    (handler sample_lib sample_world
       (sample_upload_request "Authorization" "s3cret"))
  /\ unquote (PStr (str "a%20b.txt")) = Ok (str "a b.txt")
  /\ (exists payload shown,
        handler sample_lib sample_world
          (sample_event "/confirm-upload" "Authorization" "s3cret"
             (json_object
                [member "file_key" "uploads/20251007_123456_00112233_a b.txt"]))
        = {| statusCode := 200;
             headers := standard_headers;
             body := json_dumps sample_lib (PDict payload) |}
        /\ dict_get payload (str "metadata") = Some (PDict shown)
        /\ dict_get shown (str "original-filename") = Some (PStr (str "a b.txt"))).
Proof.
  assert (Hcfg : configured sample_world (str "jnuc-uploads")
                   (str "arn:aws:secret"))
    by (repeat apply conj; vm_compute; try reflexivity; discriminate).
  assert (Hq : quote (PStr (str "a b.txt")) [] = Ok (str "a%20b.txt"))
    by (vm_compute; reflexivity).
  destruct (original_filename_round_trip sample_lib sample_world
              (str "jnuc-uploads") (str "arn:aws:secret")
              (str "a b.txt") (str "a%20b.txt") Hcfg Hq) as (HI & HII & HIII).
  split; [|split; [exact HII|]].
  - apply (HI _ [(str "file_name", PStr (str "a b.txt"))]).
    + split; vm_compute; reflexivity.
    + vm_compute; reflexivity.
    + exists (PStr (json_object [member "file_name" "a b.txt"]));
        split; vm_compute; reflexivity.
    + vm_compute; reflexivity.
    + vm_compute; discriminate.
    + vm_compute; reflexivity.
  - destruct (HIII
      (sample_event "/confirm-upload" "Authorization" "s3cret"
         (json_object
            [member "file_key" "uploads/20251007_123456_00112233_a b.txt"]))
      [(str "file_key", PStr (str "uploads/20251007_123456_00112233_a b.txt"))]
      (str "uploads/20251007_123456_00112233_a b.txt")
      {| Metadata := Some (PDict
           [(str "uploaded-at", PStr (str "2025-10-07T12:34:56.001001"));
            (str "original-filename", PStr (str "a%20b.txt"))]);
         ContentLength := Some (PInt 5);
         ContentType := Some (PStr (str "text/plain"));
         LastModified := Some
           {| year := 2025; month := 10; day := 7;
              hour := 12; minute := 35; second := 2;
              microsecond := 0; tz_minutes := Some 0 |} |}
      [(str "uploaded-at", PStr (str "2025-10-07T12:34:56.001001"));
       (str "original-filename", PStr (str "a%20b.txt"))]
      (PStr (str "a%20b.txt")) (PInt 5) (PStr (str "text/plain"))
      {| year := 2025; month := 10; day := 7;
         hour := 12; minute := 35; second := 2;
         microsecond := 0; tz_minutes := Some 0 |})
      as (payload & shown & Hresp & Hmeta & Hdec).
    + split; vm_compute; reflexivity.
    + vm_compute; reflexivity.
    + exists (PStr (json_object
        [member "file_key" "uploads/20251007_123456_00112233_a b.txt"]));
        split; vm_compute; reflexivity.
    + vm_compute; reflexivity.
    + vm_compute; discriminate.
    + vm_compute; reflexivity.
    + vm_compute; reflexivity.
    + reflexivity.
    + vm_compute; reflexivity.
    + reflexivity.
    + reflexivity.
    + reflexivity.
    + exists payload, shown. split; [exact Hresp|]. split; [exact Hmeta|].
      apply Hdec; reflexivity.
Defined.

(** C4. The stored name [%FF] escapes an octet that is not UTF-8: decoding
    it fails.  Confirmation of the object answers 200, but shows U+FFFD for
    the name, not the stored [%FF]: [unquote] replaces what it cannot decode
    and does not raise, so that the [except] of line 319, which would keep
    the stored value, is not reached. *)
Theorem undecodable_stored_name_is_replaced :
  utf8_decode_strict (unquote_to_bytes (str "%FF"))
  = raise UnicodeDecodeError "'utf-8' codec can't decode byte"
  /\ unquote (PStr (str "%FF")) = Ok [65533]
  /\ s3_head_object sample_world (str "jnuc-uploads") (str "uploads/legacy.bin")
     = Ok {| Metadata := Some (PDict [(str "original-filename",
                                       PStr (str "%FF"))]);
             ContentLength := Some (PInt 0);
             ContentType := Some (PStr (str "binary/octet-stream"));
             LastModified := Some
               {| year := 2024; month := 2; day := 29;
                  hour := 0; minute := 0; second := 0;
                  microsecond := 0; tz_minutes := Some 0 |} |}
  /\ exists payload,
       handler sample_lib sample_world
         (sample_event "/confirm-upload" "Authorization" "s3cret"
            (json_object [member "file_key" "uploads/legacy.bin"]))
       = {| statusCode := 200;
            headers := standard_headers;
            body := json_dumps sample_lib (PDict payload) |}
       /\ dict_get payload (str "metadata")
          = Some (PDict [(str "original-filename", PStr [65533])]).
Proof.
  split; [vm_compute; reflexivity|].
  split; [vm_compute; reflexivity|].
  split; [vm_compute; reflexivity|].
  destruct (confirm_upload_success sample_lib sample_world
      (sample_event "/confirm-upload" "Authorization" "s3cret"
         (json_object [member "file_key" "uploads/legacy.bin"]))
      (str "jnuc-uploads") (str "arn:aws:secret")
      [(str "file_key", PStr (str "uploads/legacy.bin"))]
      (str "uploads/legacy.bin")
      {| Metadata := Some (PDict [(str "original-filename",
                                   PStr (str "%FF"))]);
         ContentLength := Some (PInt 0);
         ContentType := Some (PStr (str "binary/octet-stream"));
         LastModified := Some
           {| year := 2024; month := 2; day := 29;
              hour := 0; minute := 0; second := 0;
              microsecond := 0; tz_minutes := Some 0 |} |}
      [(str "original-filename", PStr (str "%FF"))]
      (PInt 0) (PStr (str "binary/octet-stream"))
      {| year := 2024; month := 2; day := 29;
         hour := 0; minute := 0; second := 0;
         microsecond := 0; tz_minutes := Some 0 |})
    as (payload & Hresp & Hmeta).
  - split; vm_compute; reflexivity.
  - repeat apply conj; vm_compute; try reflexivity; discriminate.
  - vm_compute; reflexivity.
  - exists (PStr (json_object [member "file_key" "uploads/legacy.bin"]));
      split; vm_compute; reflexivity.
  - vm_compute; reflexivity.
  - vm_compute; discriminate.
  - vm_compute; reflexivity.
  - vm_compute; reflexivity.
  - reflexivity.
  - reflexivity.
  - reflexivity.
  - reflexivity.
  - exists payload. split; [exact Hresp|].
    rewrite Hmeta. vm_compute; reflexivity.
Qed.

(** * Further properties of the code *)

(** ** The authenticator, case by case *)

(** [authenticate_request] as a function of the header it finds and of the
    secret it fetches. *)
Lemma authenticate_request_cases L w event secret_arn :
  authenticate_request L w event secret_arn =
  match lookup_auth_header event with
  | Raise e => Raise e
  | Ok v =>
    if negb (truthy v) then
      Ok (Rejected (error_response L 401 "Missing Authorization header"))
    else
    match v with
    | PStr h =>
      if negb (startswith h (str "Bearer ")) then
        Ok (Rejected (error_response L 401
              "Invalid Authorization header format. Expected: Bearer <token>"))
      else
      match boto3_client w (str "secretsmanager") with
      | Raise e => Raise e
      | Ok _ =>
        match fetch_secret L w secret_arn with
        | Raise e =>
            Ok (Rejected (error_response L 500
                  "Failed to retrieve authentication secret"))
        | Ok expected_secret =>
            if negb (truthy expected_secret) then
              Ok (Rejected (error_response L 500
                    "Shared secret not found in Secrets Manager"))
            else if negb (eq_str expected_secret (slice_from 7 h)) then
              Ok (Rejected (error_response L 401 "Invalid authentication token"))
            else Ok Authenticated
        end
      end
    | _ => raise AttributeError "object has no attribute 'startswith'"
    end
  end.
Proof.
  destruct (lookup_auth_header event) as [v|e] eqn:Hl.
  2: { exact (authenticate_request_lookup L w event secret_arn e Hl). }
  destruct v as [| b | n | bits | h | l | d].
  5: { destruct h as [|c h].
       - revert Hl; unfold lookup_auth_header, authenticate_request.
         destruct (py_get event (str "headers") (PDict [])) as [hs|];
           cbn [bind]; [|discriminate].
         destruct (py_get hs (str "Authorization") PNone) as [a|];
           cbn [bind]; [|discriminate].
         intros ->; reflexivity.
       - destruct (startswith (c :: h) (str "Bearer ")) eqn:Hs.
         + destruct (boto3_client w (str "secretsmanager")) as [[]|e] eqn:Hc.
           * rewrite (authenticate_request_bearer L w event secret_arn _ Hl Hs Hc).
             reflexivity.
           * revert Hl; unfold lookup_auth_header, authenticate_request.
             destruct (py_get event (str "headers") (PDict [])) as [hs|];
               cbn [bind]; [|discriminate].
             destruct (py_get hs (str "Authorization") PNone) as [a|];
               cbn [bind]; [|discriminate].
             intros ->; cbn [bind truthy negb]. rewrite Hs, Hc; reflexivity.
         + revert Hl; unfold lookup_auth_header, authenticate_request.
           destruct (py_get event (str "headers") (PDict [])) as [hs|];
             cbn [bind]; [|discriminate].
           destruct (py_get hs (str "Authorization") PNone) as [a|];
             cbn [bind]; [|discriminate].
           intros ->; cbn [bind truthy negb]. rewrite Hs; reflexivity. }
  all: revert Hl; unfold lookup_auth_header, authenticate_request;
    destruct (py_get event (str "headers") (PDict [])) as [hs|];
    cbn [bind]; [|discriminate];
    destruct (py_get hs (str "Authorization") PNone) as [a|];
    cbn [bind]; [|discriminate];
    intros ->; cbn [bind truthy negb];
    repeat split_match_goal; reflexivity.
Qed.

(** X1. A request whose headers hold no value, [null] or the empty string
    under both [Authorization] and [authorization] is answered 401 "Missing
    Authorization header", whatever the world: the secret store is not
    consulted. *)
Theorem blank_authorization_header_is_401 L w event secret_arn hs :
  py_get event (str "headers") (PDict []) = Ok (PDict hs) ->
  field_blank hs (str "Authorization") ->
  field_blank hs (str "authorization") ->
  authenticate_request L w event secret_arn
  = Ok (Rejected (error_response L 401 "Missing Authorization header")).
Proof.
  intros Hh H1 H2. rewrite authenticate_request_cases.
  unfold lookup_auth_header. rewrite Hh; cbn [bind py_get].
  rewrite (truthy_blank _ _ H1), (truthy_blank _ _ H2). reflexivity.
Qed.

Lemma blank_authorization_header_is_401_witness :
  authenticate_request sample_lib sample_world_no_secret
    (sample_request "/presigned-url" "POST"
       (PDict [(str "Authorization", PStr []);
               (str "X-Api-Key", PStr (str "s3cret"))])
       (json_object [member "file_name" "a b.txt"]))
    (str "arn:aws:secret")
  = Ok (Rejected
          (error_response sample_lib 401 "Missing Authorization header")).
Proof.
  apply (blank_authorization_header_is_401 sample_lib sample_world_no_secret
           _ _ [(str "Authorization", PStr []);
                (str "X-Api-Key", PStr (str "s3cret"))]).
  - vm_compute; reflexivity.
  - right; right; vm_compute; reflexivity.
  - left; vm_compute; reflexivity.
Defined.

(** X2. A non-empty Authorization header that does not start with
    "Bearer " (the scheme in another case, a missing space, another scheme) is
    answered 401 "Invalid Authorization header format. Expected: Bearer
    <token>", whatever the world. *)
Theorem malformed_authorization_header_is_401 L w event secret_arn h :
  lookup_auth_header event = Ok (PStr h) ->
  h <> [] ->
  startswith h (str "Bearer ") = false ->
  authenticate_request L w event secret_arn
  = Ok (Rejected (error_response L 401
          "Invalid Authorization header format. Expected: Bearer <token>")).
Proof.
  intros Hl Hne Hs. rewrite authenticate_request_cases, Hl.
  destruct h as [|c h]; [contradiction|].
  cbn [truthy negb]. rewrite Hs; reflexivity.
Qed.

Lemma malformed_authorization_header_is_401_witness :
  authenticate_request sample_lib sample_world_no_secret
    (sample_request "/presigned-url" "POST"
       (PDict [(str "Authorization", PStr (str "bearer s3cret"))])
       (json_object [member "file_name" "a b.txt"]))
    (str "arn:aws:secret")
  = Ok (Rejected (error_response sample_lib 401
          "Invalid Authorization header format. Expected: Bearer <token>")).
Proof.
  apply (malformed_authorization_header_is_401 sample_lib
           sample_world_no_secret _ _ (str "bearer s3cret")).
  - vm_compute; reflexivity.
  - vm_compute; discriminate.
  - vm_compute; reflexivity.
Defined.

(** X3. When the secret read from the store is absent from its JSON object,
    [null] or empty, a request with a Bearer token is answered 500 "Shared
    secret not found in Secrets Manager": no token matches an empty secret,
    the empty token included. *)
Theorem empty_secret_is_500 L w event secret_arn h expected_secret :
  lookup_auth_header event = Ok (PStr h) ->
  startswith h (str "Bearer ") = true ->
  boto3_client w (str "secretsmanager") = Ok tt ->
  fetch_secret L w secret_arn = Ok expected_secret ->
  truthy expected_secret = false ->
  authenticate_request L w event secret_arn
  = Ok (Rejected (error_response L 500
          "Shared secret not found in Secrets Manager")).
Proof.
  intros Hl Hs Hc Hf Ht.
  rewrite (authenticate_request_bearer L w event secret_arn h Hl Hs Hc), Hf, Ht.
  reflexivity.
Qed.

Lemma empty_secret_is_500_witness :
  authenticate_request sample_lib_more
    (with_secret_store sample_world (fun _ =>
       Ok (PDict [(str "SecretString",
                   PStr (json_object [member "shared_secret" EmptyString]))])))
    (sample_request "/presigned-url" "POST"
       (PDict [(str "Authorization", PStr (str "Bearer "))]) [])
    (str "arn:aws:secret")
  = Ok (Rejected (error_response sample_lib_more 500
          "Shared secret not found in Secrets Manager")).
Proof.
  apply (empty_secret_is_500 sample_lib_more _ _ _ (str "Bearer ") (PStr []));
    vm_compute; reflexivity.
Defined.

(** X4. Whatever goes wrong while the secret is read (the store raises, its
    response has no [SecretString], the string is not JSON, the JSON is not an
    object), a request with a Bearer token is answered with the same 500
    "Failed to retrieve authentication secret". *)
Theorem unreadable_secret_is_500 L w event secret_arn h e :
  lookup_auth_header event = Ok (PStr h) ->
  startswith h (str "Bearer ") = true ->
  boto3_client w (str "secretsmanager") = Ok tt ->
  fetch_secret L w secret_arn = Raise e ->
  authenticate_request L w event secret_arn
  = Ok (Rejected (error_response L 500
          "Failed to retrieve authentication secret")).
Proof.
  intros Hl Hs Hc Hf.
  rewrite (authenticate_request_bearer L w event secret_arn h Hl Hs Hc), Hf.
  reflexivity.
Qed.

Lemma unreadable_secret_is_500_witness :
  authenticate_request sample_lib
    (with_secret_store sample_world (fun _ =>
       Ok (PDict [(str "SecretBinary", PStr (str "czNjcmV0"))])))
    (sample_request "/presigned-url" "POST" (bearer "s3cret") [])
    (str "arn:aws:secret")
  = Ok (Rejected (error_response sample_lib 500
          "Failed to retrieve authentication secret")).
Proof.
  apply (unreadable_secret_is_500 sample_lib _ _ _ (str "Bearer s3cret")
           {| exn_cls := KeyError; exn_text := str "SecretString" |});
    vm_compute; reflexivity.
Defined.

(** X5. The authenticator lets a request through only if its Authorization
    header is a string "Bearer " followed by a non-empty token and the secret
    read from the store is that very token. *)
Theorem authenticated_only_with_the_secret L w event secret_arn :
  authenticate_request L w event secret_arn = Ok Authenticated ->
  exists h,
    lookup_auth_header event = Ok (PStr h)
    /\ startswith h (str "Bearer ") = true
    /\ slice_from 7 h <> []
    /\ fetch_secret L w secret_arn = Ok (PStr (slice_from 7 h)).
Proof.
  rewrite authenticate_request_cases.
  destruct (lookup_auth_header event) as [v|]; [|discriminate].
  destruct (truthy v); cbn [negb]; [|discriminate].
  destruct v as [| b | n | bits | h | l | d]; try discriminate.
  destruct (startswith h (str "Bearer ")) eqn:Hs; cbn [negb]; [|discriminate].
  destruct (boto3_client w (str "secretsmanager")); [|discriminate].
  destruct (fetch_secret L w secret_arn) as [ex|]; [|discriminate].
  destruct (truthy ex) eqn:Ht; cbn [negb]; [|discriminate].
  destruct (eq_str ex (slice_from 7 h)) eqn:He; cbn [negb]; [|discriminate].
  intros _. apply eq_str_true in He; subst ex.
  exists h. split; [reflexivity|]. split; [exact Hs|]. split; [|reflexivity].
  intros Hnil; rewrite Hnil in Ht; discriminate Ht.
Qed.

Lemma authenticated_only_with_the_secret_witness :
  exists h,
    lookup_auth_header (sample_upload_request "authorization" "s3cret")
    = Ok (PStr h)
    /\ startswith h (str "Bearer ") = true
    /\ slice_from 7 h <> []
    /\ fetch_secret sample_lib sample_world (str "arn:aws:secret")
       = Ok (PStr (slice_from 7 h)).
Proof.
  apply (authenticated_only_with_the_secret sample_lib sample_world
           (sample_upload_request "authorization" "s3cret")
           (str "arn:aws:secret")).
  vm_compute; reflexivity.
Defined.

(** X6. A request whose Authorization header is "Bearer " followed by the
    non-empty secret the store holds is authenticated. *)
Theorem the_secret_authenticates L w event secret_arn token :
  lookup_auth_header event = Ok (PStr (str "Bearer " ++ token)) ->
  token <> [] ->
  boto3_client w (str "secretsmanager") = Ok tt ->
  fetch_secret L w secret_arn = Ok (PStr token) ->
  authenticate_request L w event secret_arn = Ok Authenticated.
Proof.
  intros Hl Hne Hc Hf.
  rewrite (authenticate_request_bearer L w event secret_arn _ Hl
             (startswith_app (str "Bearer ") token) Hc), Hf.
  destruct token as [|c t]; [contradiction|].
  cbn [truthy negb].
  change (slice_from 7 (str "Bearer " ++ c :: t)) with (c :: t).
  unfold eq_str; rewrite pystr_eqb_refl; reflexivity.
Qed.

Lemma the_secret_authenticates_witness :
  authenticate_request sample_lib sample_world
    (sample_upload_request "authorization" "s3cret") (str "arn:aws:secret")
  = Ok Authenticated.
Proof.
  apply (the_secret_authenticates sample_lib sample_world _ _ (str "s3cret")).
  - vm_compute; reflexivity.
  - vm_compute; discriminate.
  - vm_compute; reflexivity.
  - vm_compute; reflexivity.
Defined.

(** ** What the handler can answer *)

Lemma env_missing_false (v : option pystr) :
  env_missing v = false -> exists s, v = Some s /\ s <> [].
Proof.
  destruct v as [[|c s]|]; try discriminate.
  intros _; exists (c :: s); split; [reflexivity | discriminate].
Qed.

Lemma configured_of_env (w : world) :
  env_missing (environ w (str "BUCKET_NAME"))
  || env_missing (environ w (str "SECRET_ARN")) = false ->
  exists bucket secret_arn,
    configured w bucket secret_arn
    /\ env_value (environ w (str "SECRET_ARN")) = secret_arn
    /\ env_value (environ w (str "BUCKET_NAME")) = bucket.
Proof.
  rewrite orb_false_iff; intros [Hb Hs].
  destruct (env_missing_false _ Hb) as (b & Eb & Nb).
  destruct (env_missing_false _ Hs) as (s & Es & Ns).
  exists b, s. unfold configured. rewrite Eb, Es.
  repeat apply conj; try reflexivity; assumption.
Qed.

(** What the authenticator rejects a request with. *)
Lemma authenticate_request_rejections L w event secret_arn r :
  authenticate_request L w event secret_arn = Ok (Rejected r) ->
  exists status message,
    r = error_response L status message /\ (status = 401 \/ status = 500).
Proof.
  rewrite authenticate_request_cases; intros H.
  repeat split_match_in H; try discriminate;
    apply ok_eq in H; injection H as <-;
    do 2 eexists; (split; [reflexivity|]); auto.
Qed.

Ltac error_leaf :=
  left; do 2 eexists; (split; [reflexivity|]); simpl; auto.

Lemma generate_presigned_url_outcome L w event r :
  generate_presigned_url L w event = Ok r ->
  (exists status message,
      r = error_response L status message /\ In status [400; 401; 500])
  \/ (statusCode r = 200
      /\ exists bucket secret_arn,
           configured w bucket secret_arn
           /\ authenticate_request L w event secret_arn = Ok Authenticated).
Proof.
  unfold generate_presigned_url; intros H.
  destruct (env_missing _ || env_missing _) eqn:Henv.
  { apply ok_eq in H; subst r. error_leaf. }
  destruct (configured_of_env w Henv) as (bucket & secret_arn & Hcfg & Es & Eb).
  rewrite Es in H.
  destruct (authenticate_request L w event secret_arn) as [[|err]|] eqn:Ha;
    cbn [bind] in H; [| |discriminate].
  2: { apply ok_eq in H; subst r.
       destruct (authenticate_request_rejections _ _ _ _ _ Ha)
         as (status & message & -> & [-> | ->]);
         left; do 2 eexists; (split; [reflexivity|]); simpl; auto. }
  unfold bind, try_except, try_except_Exception in H.
  repeat split_match_in H; try discriminate; apply ok_eq in H; subst r;
    first [ error_leaf
          | right; split; [reflexivity|];
            exists bucket, secret_arn; split; assumption ].
Qed.

Lemma confirm_upload_outcome L w event r :
  confirm_upload L w event = Ok r ->
  (exists status message,
      r = error_response L status message /\ In status [400; 401; 404; 500])
  \/ (statusCode r = 200
      /\ exists bucket secret_arn,
           configured w bucket secret_arn
           /\ authenticate_request L w event secret_arn = Ok Authenticated).
Proof.
  unfold confirm_upload; intros H.
  destruct (env_missing _ || env_missing _) eqn:Henv.
  { apply ok_eq in H; subst r. error_leaf. }
  destruct (configured_of_env w Henv) as (bucket & secret_arn & Hcfg & Es & Eb).
  rewrite Es in H.
  destruct (authenticate_request L w event secret_arn) as [[|err]|] eqn:Ha;
    cbn [bind] in H; [| |discriminate].
  2: { apply ok_eq in H; subst r.
       destruct (authenticate_request_rejections _ _ _ _ _ Ha)
         as (status & message & -> & [-> | ->]);
         left; do 2 eexists; (split; [reflexivity|]); simpl; auto. }
  unfold bind, try_except, try_except_Exception in H.
  repeat split_match_in H; try discriminate; apply ok_eq in H; subst r;
    first [ error_leaf
          | right; split; [reflexivity|];
            exists bucket, secret_arn; split; assumption ].
Qed.

(** The three kinds of answer: an error object, the list of endpoints, or a
    success for an authenticated request. *)
Lemma handler_outcome L w event :
  (exists status message,
      handler L w event = error_response L status message
      /\ In status [400; 401; 404; 500])
  \/ handler L w event = endpoint_not_found L
  \/ (statusCode (handler L w event) = 200
      /\ exists bucket secret_arn,
           configured w bucket secret_arn
           /\ authenticate_request L w event secret_arn = Ok Authenticated).
Proof.
  unfold handler, try_except_Exception.
  destruct (bind _ _) as [r|e] eqn:H; [|error_leaf].
  unfold bind in H.
  repeat split_match_in H; try discriminate.
  - destruct (generate_presigned_url_outcome L w event r H)
      as [(status & message & -> & Hin) | Hok].
    + left; exists status, message; split; [reflexivity|].
      simpl in *; intuition.
    + right; right; exact Hok.
  - destruct (confirm_upload_outcome L w event r H)
      as [(status & message & -> & Hin) | Hok].
    + left; exists status, message; split; [reflexivity | exact Hin].
    + right; right; exact Hok.
  - apply ok_eq in H; subst r. right; left; reflexivity.
Qed.

(** X7. Whatever the event, the library and the world, the status of the
    handler's answer is one of 200, 400, 401, 404 and 500. *)
Theorem handler_status_is_a_written_one L w event :
  In (statusCode (handler L w event)) written_statuses.
Proof.
  destruct (handler_outcome L w event)
    as [(status & message & -> & Hin) | [-> | [-> _]]];
    unfold written_statuses; simpl in *; intuition.
Qed.

(** X8. The handler answers 200 only when the process is configured and the
    authenticator let the request through; with X5, only to a request that
    presents the stored secret. *)
Theorem success_only_when_authenticated L w event :
  statusCode (handler L w event) = 200 ->
  exists bucket secret_arn,
    configured w bucket secret_arn
    /\ authenticate_request L w event secret_arn = Ok Authenticated.
Proof.
  destruct (handler_outcome L w event)
    as [(status & message & -> & Hin) | [-> | [_ Hok]]].
  - cbn [statusCode error_response]; intros Hs; subst status.
    simpl in Hin; intuition discriminate.
  - cbn [statusCode endpoint_not_found]; discriminate.
  - intros _; exact Hok.
Qed.

Lemma success_only_when_authenticated_witness :
  exists bucket secret_arn,
    configured sample_world bucket secret_arn
    /\ authenticate_request sample_lib sample_world
         (sample_upload_request "Authorization" "s3cret") secret_arn
       = Ok Authenticated.
Proof.
  apply (success_only_when_authenticated sample_lib sample_world
           (sample_upload_request "Authorization" "s3cret")).
  vm_compute; reflexivity.
Defined.

(** X9. Every answer whose status is not 200 has for body a JSON object
    with an [error] member that is a string. *)
Theorem failure_body_carries_an_error_message L w event :
  statusCode (handler L w event) <> 200 ->
  exists payload message,
    body (handler L w event) = json_dumps L (PDict payload)
    /\ dict_get payload (str "error") = Some (PStr message).
Proof.
  destruct (handler_outcome L w event)
    as [(status & message & -> & Hin) | [-> | [H200 _]]]; intros Hne.
  - do 2 eexists; split; reflexivity.
  - do 2 eexists; split; reflexivity.
  - contradiction.
Qed.

Lemma failure_body_carries_an_error_message_witness :
  exists payload message,
    body (handler sample_lib sample_world
            (sample_request "/presigned-url" "GET" (bearer "s3cret") []))
    = json_dumps sample_lib (PDict payload)
    /\ dict_get payload (str "error") = Some (PStr message).
Proof.
  apply (failure_body_carries_an_error_message sample_lib sample_world).
  vm_compute; discriminate.
Defined.

(** ** The router and the order of the checks *)

(** X10. A request for anything but POST /presigned-url and POST
    /confirm-upload (another path, another method, a method in lower case) is
    answered 404 with the list of the two endpoints, whatever its headers and
    body and whatever the world. *)
Theorem unknown_endpoint_is_404 L w event resource_path http_method :
  py_get event (str "resource") (PStr []) = Ok resource_path ->
  py_get event (str "httpMethod") (PStr []) = Ok http_method ->
  ~ (resource_path = PStr (str "/presigned-url")
     /\ http_method = PStr (str "POST")) ->
  ~ (resource_path = PStr (str "/confirm-upload")
     /\ http_method = PStr (str "POST")) ->
  handler L w event = endpoint_not_found L.
Proof.
  intros Hr Hm Hp Hc. unfold handler. rewrite Hr, Hm; cbn [bind].
  destruct (eq_str resource_path (str "/presigned-url")
            && eq_str http_method (str "POST")) eqn:E1.
  { apply andb_true_iff in E1; destruct E1 as [E1 E2].
    apply eq_str_true in E1, E2. exfalso; apply Hp; split; assumption. }
  destruct (eq_str resource_path (str "/confirm-upload")
            && eq_str http_method (str "POST")) eqn:E2.
  { apply andb_true_iff in E2; destruct E2 as [E2 E3].
    apply eq_str_true in E2, E3. exfalso; apply Hc; split; assumption. }
  reflexivity.
Qed.

Lemma unknown_endpoint_is_404_witness :
  handler sample_lib sample_world_no_secret
    (sample_request "/presigned-url" "post" PNone [])
  = endpoint_not_found sample_lib.
Proof.
  apply (unknown_endpoint_is_404 sample_lib sample_world_no_secret _
           (PStr (str "/presigned-url")) (PStr (str "post")));
    try (vm_compute; reflexivity);
    intros [_ H]; vm_compute in H; discriminate H.
Defined.

(** X11. On both endpoints, a process without a bucket name or without a
    secret identifier (unset or empty) answers 500 "Missing required
    environment variables" before it looks at the request: authentication
    does not run. *)
Theorem missing_configuration_is_500 L w event :
  routed event "/presigned-url" "POST" \/ routed event "/confirm-upload" "POST" ->
  environ w (str "BUCKET_NAME") = None
  \/ environ w (str "BUCKET_NAME") = Some []
  \/ environ w (str "SECRET_ARN") = None
  \/ environ w (str "SECRET_ARN") = Some [] ->
  handler L w event
  = error_response L 500 "Missing required environment variables".
Proof.
  intros Hr Henv.
  assert (Hm : env_missing (environ w (str "BUCKET_NAME"))
               || env_missing (environ w (str "SECRET_ARN")) = true).
  { apply orb_true_iff.
    destruct Henv as [H | [H | [H | H]]]; rewrite H; auto. }
  destruct Hr as [Hr | Hr].
  - rewrite (handler_presigned_url L w event Hr).
    unfold generate_presigned_url; rewrite Hm; reflexivity.
  - rewrite (handler_confirm_upload L w event Hr).
    unfold confirm_upload; rewrite Hm; reflexivity.
Qed.

Lemma missing_configuration_is_500_witness :
  handler sample_lib
    (with_environ sample_world (fun k =>
       if pystr_eqb k (str "BUCKET_NAME") then Some (str "jnuc-uploads")
       else None))
    (sample_request "/confirm-upload" "POST" PNone [])
  = error_response sample_lib 500 "Missing required environment variables".
Proof.
  apply missing_configuration_is_500.
  - right; split; vm_compute; reflexivity.
  - right; right; left; vm_compute; reflexivity.
Defined.

(** X12. On both endpoints of a configured process, a request the
    authenticator rejects gets the authenticator's answer as it is: the body
    is not read and the object store is not called. *)
Theorem rejected_request_gets_the_authenticator_answer
  L w event bucket secret_arn r :
  routed event "/presigned-url" "POST" \/ routed event "/confirm-upload" "POST" ->
  configured w bucket secret_arn ->
  authenticate_request L w event secret_arn = Ok (Rejected r) ->
  handler L w event = r.
Proof.
  intros [Hr | Hr] Hcfg Hauth.
  - rewrite (handler_presigned_url L w event Hr). unfold generate_presigned_url.
    prelude Hcfg Hauth. reflexivity.
  - rewrite (handler_confirm_upload L w event Hr). unfold confirm_upload.
    prelude Hcfg Hauth. reflexivity.
Qed.

Lemma rejected_request_gets_the_authenticator_answer_witness :
  handler sample_lib sample_world
    (sample_request "/confirm-upload" "POST" (bearer "guess") (str "{oops"))
  = error_response sample_lib 401 "Invalid authentication token".
Proof.
  apply (rejected_request_gets_the_authenticator_answer sample_lib sample_world
           _ (str "jnuc-uploads") (str "arn:aws:secret")).
  - right; split; vm_compute; reflexivity.
  - repeat apply conj; vm_compute; try reflexivity; discriminate.
  - vm_compute; reflexivity.
Defined.

(** X13. On both endpoints of a configured process, a request whose
    [headers] value is not an object ([null], as the gateway sends it for a
    request without headers) makes the authenticator raise, and the handler
    answers 500 "Internal server error", not 401. *)
Theorem non_object_headers_is_internal_error L w event bucket secret_arn v :
  routed event "/presigned-url" "POST" \/ routed event "/confirm-upload" "POST" ->
  configured w bucket secret_arn ->
  py_get event (str "headers") (PDict []) = Ok v ->
  (forall d, v <> PDict d) ->
  handler L w event = error_response L 500 "Internal server error".
Proof.
  intros Hr Hcfg Hh Hv.
  assert (Hauth : exists e, authenticate_request L w event secret_arn = Raise e).
  { unfold authenticate_request. rewrite Hh; cbn [bind].
    destruct v; cbn [py_get bind]; try (eexists; reflexivity).
    exfalso; eapply Hv; reflexivity. }
  destruct Hauth as [e Hauth]. destruct Hr as [Hr | Hr].
  - rewrite (handler_presigned_url L w event Hr). unfold generate_presigned_url.
    prelude Hcfg Hauth. reflexivity.
  - rewrite (handler_confirm_upload L w event Hr). unfold confirm_upload.
    prelude Hcfg Hauth. reflexivity.
Qed.

Lemma non_object_headers_is_internal_error_witness :
  handler sample_lib sample_world
    (sample_request "/presigned-url" "POST" PNone
       (json_object [member "file_name" "a b.txt"]))
  = error_response sample_lib 500 "Internal server error".
Proof.
  apply (non_object_headers_is_internal_error sample_lib sample_world _
           (str "jnuc-uploads") (str "arn:aws:secret") PNone).
  - left; split; vm_compute; reflexivity.
  - repeat apply conj; vm_compute; try reflexivity; discriminate.
  - vm_compute; reflexivity.
  - intros d; discriminate.
Defined.

(** ** Bodies the endpoints cannot read *)

(** X14. On both endpoints, an authenticated request whose body is valid
    JSON but not an object (a list, a string, a number) is answered 500
    "Internal server error", not 400: [request_data.get] raises and only the
    handler's outer [except] catches it. *)
Theorem non_object_body_is_internal_error L w event bucket secret_arn v :
  routed event "/presigned-url" "POST" \/ routed event "/confirm-upload" "POST" ->
  configured w bucket secret_arn ->
  authenticate_request L w event secret_arn = Ok Authenticated ->
  request_json L event v ->
  (forall d, v <> PDict d) ->
  handler L w event = error_response L 500 "Internal server error".
Proof.
  intros [Hr | Hr] Hcfg Hauth Hjson Hv.
  - rewrite (handler_presigned_url L w event Hr). unfold generate_presigned_url.
    prelude Hcfg Hauth. parsed Hjson.
    destruct v; cbn [py_get bind]; try reflexivity.
    exfalso; eapply Hv; reflexivity.
  - rewrite (handler_confirm_upload L w event Hr). unfold confirm_upload.
    prelude Hcfg Hauth. parsed Hjson.
    destruct v; cbn [py_get bind]; try reflexivity.
    exfalso; eapply Hv; reflexivity.
Qed.

Lemma non_object_body_is_internal_error_witness :
  handler sample_lib_more sample_world
    (sample_request "/presigned-url" "POST" (bearer "s3cret") (str "[1]"))
  = error_response sample_lib_more 500 "Internal server error".
Proof.
  apply (non_object_body_is_internal_error sample_lib_more sample_world _
           (str "jnuc-uploads") (str "arn:aws:secret") (PList [PInt 1])).
  - left; split; vm_compute; reflexivity.
  - repeat apply conj; vm_compute; try reflexivity; discriminate.
  - vm_compute; reflexivity.
  - exists (PStr (str "[1]")); split; vm_compute; reflexivity.
  - intros d; discriminate.
Defined.

(** X15. On both endpoints, an authenticated request whose body cannot be
    decoded (flagged as base64 and not base64, or not UTF-8 underneath) is
    answered 500 "Internal server error", not 400. *)
Theorem undecodable_body_is_internal_error L w event bucket secret_arn e :
  routed event "/presigned-url" "POST" \/ routed event "/confirm-upload" "POST" ->
  configured w bucket secret_arn ->
  authenticate_request L w event secret_arn = Ok Authenticated ->
  decode_body L event = Raise e ->
  handler L w event = error_response L 500 "Internal server error".
Proof.
  intros [Hr | Hr] Hcfg Hauth Hd.
  - rewrite (handler_presigned_url L w event Hr). unfold generate_presigned_url.
    prelude Hcfg Hauth. rewrite Hd; reflexivity.
  - rewrite (handler_confirm_upload L w event Hr). unfold confirm_upload.
    prelude Hcfg Hauth. rewrite Hd; reflexivity.
Qed.

Lemma undecodable_body_is_internal_error_witness :
  handler sample_lib sample_world
    (PDict [(str "resource", PStr (str "/confirm-upload"));
            (str "httpMethod", PStr (str "POST"));
            (str "headers", bearer "s3cret");
            (str "body", PStr (str "e30"));
            (str "isBase64Encoded", PBool true)])
  = error_response sample_lib 500 "Internal server error".
Proof.
  apply (undecodable_body_is_internal_error sample_lib sample_world _
           (str "jnuc-uploads") (str "arn:aws:secret")
           {| exn_cls := ValueError; exn_text := str "Incorrect padding" |}).
  - right; split; vm_compute; reflexivity.
  - repeat apply conj; vm_compute; try reflexivity; discriminate.
  - vm_compute; reflexivity.
  - vm_compute; reflexivity.
Defined.

(** ** The issuer *)

Section ContentType.

Variables (L : pylib) (w : world).
Variables (ev1 ev2 d1 d2 : dict pyval).

Hypothesis same_event : forall k, k <> str "body" -> dict_get ev1 k = dict_get ev2 k.
Hypothesis json1 : request_json L (PDict ev1) (PDict d1).
Hypothesis json2 : request_json L (PDict ev2) (PDict d2).

(** The first body names no content type, the second names the default. *)
Hypothesis unnamed : dict_get d1 (str "content_type") = None.
Hypothesis named :
  dict_get d2 (str "content_type")
  = Some (PStr (str "application/octet-stream")).
Hypothesis same_body :
  forall k, k <> str "content_type" -> dict_get d1 k = dict_get d2 k.

Lemma generate_presigned_url_default_content_type :
  generate_presigned_url L w (PDict ev1) = generate_presigned_url L w (PDict ev2).
Proof.
  unfold generate_presigned_url.
  destruct (env_missing _ || env_missing _); [reflexivity|].
  rewrite (same_authentication L w ev1 ev2 same_event).
  destruct (authenticate_request L w (PDict ev2) _) as [[|r]|]; cbn [bind];
    try reflexivity.
  destruct json1 as (b1 & Hd1 & Hl1), json2 as (b2 & Hd2 & Hl2).
  rewrite Hd1, Hd2; cbn [bind]; rewrite Hl1, Hl2; cbn [bind try_except py_get].
  rewrite (same_body (str "file_name")) by str_neq.
  rewrite unnamed, named. reflexivity.
Qed.

Lemma confirm_upload_default_content_type :
  confirm_upload L w (PDict ev1) = confirm_upload L w (PDict ev2).
Proof.
  unfold confirm_upload.
  destruct (env_missing _ || env_missing _); [reflexivity|].
  rewrite (same_authentication L w ev1 ev2 same_event).
  destruct (authenticate_request L w (PDict ev2) _) as [[|r]|]; cbn [bind];
    try reflexivity.
  destruct json1 as (b1 & Hd1 & Hl1), json2 as (b2 & Hd2 & Hl2).
  rewrite Hd1, Hd2; cbn [bind]; rewrite Hl1, Hl2; cbn [bind try_except py_get].
  rewrite (same_body (str "file_key")) by str_neq.
  reflexivity.
Qed.

Lemma handler_default_content_type :
  handler L w (PDict ev1) = handler L w (PDict ev2).
Proof.
  unfold handler; cbn [py_get bind].
  rewrite (same_event (str "resource")), (same_event (str "httpMethod"))
    by str_neq.
  rewrite generate_presigned_url_default_content_type,
    confirm_upload_default_content_type.
  reflexivity.
Qed.

End ContentType.

(** X16. A request that names no [content_type] is answered exactly as the
    same request with [content_type] "application/octet-stream": the same
    credentials are asked of the object store for the same key. *)
Theorem content_type_defaults_to_octet_stream L w ev1 ev2 d1 d2 :
  (forall k, k <> str "body" -> dict_get ev1 k = dict_get ev2 k) ->
  request_json L (PDict ev1) (PDict d1) ->
  request_json L (PDict ev2) (PDict d2) ->
  dict_get d1 (str "content_type") = None ->
  dict_get d2 (str "content_type")
  = Some (PStr (str "application/octet-stream")) ->
  (forall k, k <> str "content_type" -> dict_get d1 k = dict_get d2 k) ->
  handler L w (PDict ev1) = handler L w (PDict ev2).
Proof. exact (handler_default_content_type L w ev1 ev2 d1 d2). Qed.

Lemma content_type_defaults_to_octet_stream_witness :
  handler sample_lib_more sample_world
    (PDict (sample_items "/presigned-url" "Authorization" "s3cret"
              (json_object [member "file_name" "a b.txt"])))
  = handler sample_lib_more sample_world
      (PDict (sample_items "/presigned-url" "Authorization" "s3cret"
                (json_object [member "file_name" "a b.txt";
                              member "content_type"
                                "application/octet-stream"]))).
Proof.
  apply (content_type_defaults_to_octet_stream sample_lib_more sample_world _ _
           [(str "file_name", PStr (str "a b.txt"))]
           [(str "file_name", PStr (str "a b.txt"));
            (str "content_type", PStr (str "application/octet-stream"))]).
  - intros k Hk; unfold sample_items; same_off_key k Hk.
  - exists (PStr (json_object [member "file_name" "a b.txt"]));
      split; vm_compute; reflexivity.
  - exists (PStr (json_object [member "file_name" "a b.txt";
                               member "content_type"
                                 "application/octet-stream"]));
      split; vm_compute; reflexivity.
  - vm_compute; reflexivity.
  - vm_compute; reflexivity.
  - intros k Hk; same_off_key k Hk.
Defined.

(** X17. An authenticated request to /presigned-url whose [file_name] is
    present but cannot be quoted (a number, a list, a string with a lone
    surrogate) is answered 500 "Failed to generate presigned URL", not 400,
    and no credential is asked of the object store. *)
Theorem unquotable_file_name_is_500 L w event bucket secret_arn d file_name e :
  routed event "/presigned-url" "POST" ->
  configured w bucket secret_arn ->
  authenticate_request L w event secret_arn = Ok Authenticated ->
  request_json L event (PDict d) ->
  dict_get d (str "file_name") = Some file_name ->
  truthy file_name = true ->
  boto3_client w (str "s3") = Ok tt ->
  quote file_name [] = Raise e ->
  handler L w event = error_response L 500 "Failed to generate presigned URL".
Proof.
  intros Hr Hcfg Hauth Hjson Hf Ht Hc Hq.
  rewrite (handler_presigned_url L w event Hr). unfold generate_presigned_url.
  prelude Hcfg Hauth. parsed Hjson.
  cbn [py_get bind]. rewrite Hf, Ht; cbn [negb]. rewrite Hc; cbn [bind].
  rewrite Hq; reflexivity.
Qed.

Lemma unquotable_file_name_is_500_witness :
  handler sample_lib_more sample_world
    (sample_request "/presigned-url" "POST" (bearer "s3cret")
       (sample_dumps (PDict [(str "file_name", PInt 7)])))
  = error_response sample_lib_more 500 "Failed to generate presigned URL".
Proof.
  apply (unquotable_file_name_is_500 sample_lib_more sample_world _
           (str "jnuc-uploads") (str "arn:aws:secret")
           [(str "file_name", PInt 7)] (PInt 7)
           {| exn_cls := TypeError;
              exn_text := str "quote_from_bytes() expected bytes" |}).
  - split; vm_compute; reflexivity.
  - repeat apply conj; vm_compute; try reflexivity; discriminate.
  - vm_compute; reflexivity.
  - exists (PStr (sample_dumps (PDict [(str "file_name", PInt 7)])));
      split; vm_compute; reflexivity.
  - vm_compute; reflexivity.
  - vm_compute; reflexivity.
  - vm_compute; reflexivity.
  - vm_compute; reflexivity.
Defined.

(** X18. When the object store issues no POST credential, whatever it is
    asked, an authenticated request to /presigned-url with a file name is
    answered 500 "Failed to generate presigned URL", whatever the exception. *)
Theorem storage_failure_is_500 L w event bucket secret_arn d file_name :
  routed event "/presigned-url" "POST" ->
  configured w bucket secret_arn ->
  authenticate_request L w event secret_arn = Ok Authenticated ->
  request_json L event (PDict d) ->
  dict_get d (str "file_name") = Some file_name ->
  truthy file_name = true ->
  boto3_client w (str "s3") = Ok tt ->
  (forall key fields conditions expires,
      exists e, s3_generate_presigned_post w bucket key fields conditions
                  expires = Raise e) ->
  handler L w event = error_response L 500 "Failed to generate presigned URL".
Proof.
  intros Hr Hcfg Hauth Hjson Hf Ht Hc Hpost.
  rewrite (handler_presigned_url L w event Hr). unfold generate_presigned_url.
  prelude Hcfg Hauth. parsed Hjson.
  cbn [py_get bind]. rewrite Hf, Ht; cbn [negb]. rewrite Hc; cbn [bind].
  destruct (quote file_name []) as [encoded|]; cbn [bind try_except_Exception];
    [|reflexivity].
  match goal with
  | |- context [s3_generate_presigned_post w ?b ?k ?f ?c ?x] =>
      destruct (Hpost k f c x) as [e He]; rewrite He
  end.
  reflexivity.
Qed.

Lemma storage_failure_is_500_witness :
  handler sample_lib
    (with_presigned_post sample_world (fun _ _ _ _ _ =>
       Raise {| exn_cls := ClientError; exn_text := str "AccessDenied" |}))
    (sample_upload_request "Authorization" "s3cret")
  = error_response sample_lib 500 "Failed to generate presigned URL".
Proof.
  apply (storage_failure_is_500 sample_lib _ _
           (str "jnuc-uploads") (str "arn:aws:secret")
           [(str "file_name", PStr (str "a b.txt"))] (PStr (str "a b.txt"))).
  - split; vm_compute; reflexivity.
  - repeat apply conj; vm_compute; try reflexivity; discriminate.
  - vm_compute; reflexivity.
  - exists (PStr (json_object [member "file_name" "a b.txt"]));
      split; vm_compute; reflexivity.
  - vm_compute; reflexivity.
  - vm_compute; reflexivity.
  - vm_compute; reflexivity.
  - intros key fields conditions expires; eexists; reflexivity.
Defined.

(** X19. Behind every 200 of /presigned-url stands a POST credential asked
    for the configured bucket and the issued key, valid 3600 seconds, under
    conditions that pin the bucket and the key and bound the upload to
    between 1 byte and 10 GiB; the answer names the same bucket, expiry and
    size limit. *)
Theorem issued_credential_is_bounded L w event bucket secret_arn d file_name :
  routed event "/presigned-url" "POST" ->
  configured w bucket secret_arn ->
  authenticate_request L w event secret_arn = Ok Authenticated ->
  request_json L event (PDict d) ->
  dict_get d (str "file_name") = Some (PStr file_name) ->
  file_name <> [] ->
  statusCode (handler L w event) = 200 ->
  exists fields conditions post payload,
    s3_generate_presigned_post w bucket (issued_key w file_name) fields
      (PList conditions) 3600 = Ok post
    /\ In (PDict [(str "bucket", PStr bucket)]) conditions
    /\ In (PDict [(str "key", PStr (issued_key w file_name))]) conditions
    /\ In (PList [PStr (str "content-length-range"); PInt 1;
                  PInt max_file_size]) conditions
    /\ body (handler L w event) = json_dumps L (PDict payload)
    /\ dict_get payload (str "bucket") = Some (PStr bucket)
    /\ dict_get payload (str "expires_in") = Some (PInt 3600)
    /\ dict_get payload (str "max_file_size") = Some (PInt max_file_size).
Proof.
  intros Hr Hcfg Hauth Hjson Hf Hne.
  rewrite (handler_presigned_url L w event Hr). unfold generate_presigned_url.
  prelude Hcfg Hauth. parsed Hjson.
  cbn [py_get bind]. rewrite Hf.
  destruct file_name as [|c fn]; [contradiction|].
  cbn [truthy negb format_value].
  destruct (boto3_client w (str "s3")) as [[]|e0];
    cbn [bind try_except_Exception];
    [|intros H; discriminate H].
  destruct (quote (PStr (c :: fn)) []) as [encoded|e1];
    cbn [bind try_except_Exception];
    [|intros H; discriminate H].
  match goal with
  | |- context [s3_generate_presigned_post ?a ?b ?c ?d ?e ?f] =>
      destruct (s3_generate_presigned_post a b c d e f) as [post|e2] eqn:Hpost
  end; cbn [bind try_except_Exception]; [|intros H; discriminate H].
  match goal with
  | |- context [s3_generate_presigned_url ?a ?b ?c ?d] =>
      destruct (s3_generate_presigned_url a b c d) as [put|e3] eqn:Hput
  end; cbn [bind try_except_Exception]; [|intros H; discriminate H].
  destruct (py_getitem post (str "url")) as [url|e4];
    cbn [bind try_except_Exception]; [|intros H; discriminate H].
  destruct (py_getitem post (str "fields")) as [fields|e5];
    cbn [bind try_except_Exception]; [|intros H; discriminate H].
  intros _. do 4 eexists.
  split; [exact Hpost|].
  split; [cbn [app map In]; auto|].
  split; [cbn [app map In]; auto|].
  split; [cbn [app map In]; auto 10|].
  split; [reflexivity|].
  split; [reflexivity|]. split; reflexivity.
Qed.

Lemma issued_credential_is_bounded_witness :
  exists fields conditions post payload,
    s3_generate_presigned_post sample_world (str "jnuc-uploads")
      (issued_key sample_world (str "a b.txt")) fields
      (PList conditions) 3600 = Ok post
    /\ In (PDict [(str "bucket", PStr (str "jnuc-uploads"))]) conditions
    /\ In (PDict [(str "key",
                   PStr (issued_key sample_world (str "a b.txt")))]) conditions
    /\ In (PList [PStr (str "content-length-range"); PInt 1;
                  PInt max_file_size]) conditions
    /\ body (handler sample_lib sample_world
               (sample_upload_request "Authorization" "s3cret"))
       = json_dumps sample_lib (PDict payload)
    /\ dict_get payload (str "bucket") = Some (PStr (str "jnuc-uploads"))
    /\ dict_get payload (str "expires_in") = Some (PInt 3600)
    /\ dict_get payload (str "max_file_size") = Some (PInt max_file_size).
Proof.
  apply (issued_credential_is_bounded sample_lib sample_world
           (sample_upload_request "Authorization" "s3cret")
           (str "jnuc-uploads") (str "arn:aws:secret")
           [(str "file_name", PStr (str "a b.txt"))] (str "a b.txt")).
  - split; vm_compute; reflexivity.
  - repeat apply conj; vm_compute; try reflexivity; discriminate.
  - vm_compute; reflexivity.
  - exists (PStr (json_object [member "file_name" "a b.txt"]));
      split; vm_compute; reflexivity.
  - vm_compute; reflexivity.
  - vm_compute; discriminate.
  - vm_compute; reflexivity.
Defined.

(** X20. The file name as it is stored, [quote(file_name, safe='')], is made
    of letters, digits, [_.-~] and [%] only, hence of ASCII characters, as
    the comment of line 169 promises. *)
Theorem quoted_file_name_is_ascii (file_name encoded : pystr) :
  quote (PStr file_name) [] = Ok encoded ->
  forallb quoted_char encoded = true
  /\ Forall (fun c => 0 <= c < 128) encoded.
Proof.
  unfold quote. destruct file_name as [|c s].
  { intros E; apply ok_eq in E; subst encoded; split; [reflexivity|constructor]. }
  destruct (utf8_encode (c :: s)) as [bs|] eqn:Hbs; cbn [bind]; [|discriminate].
  intros E; apply ok_eq in E; subst encoded.
  pose proof (utf8_encode_octets _ _ Hbs) as Hoct.
  split; [|exact (quote_from_bytes_ascii bs Hoct)].
  clear Hbs. unfold quote_from_bytes.
  induction Hoct as [|b bs Hb _ IH]; cbn [flat_map]; [reflexivity|].
  rewrite forallb_app, IH, andb_true_r.
  unfold quote_byte, octet in *; rewrite is_safe_nil.
  destruct (always_safe b) eqn:S; cbn [forallb]; unfold quoted_char.
  - rewrite S; reflexivity.
  - assert (Hhex : forall d, 0 <= d < 16 -> always_safe (hex_upper d) = true).
    { intros d Hd.
      exact (forall_below (fun d => always_safe (hex_upper d)) 16
               ltac:(vm_compute; reflexivity) d Hd). }
    rewrite (Hhex (b / 16)) by divmod. rewrite (Hhex (b mod 16)) by divmod.
    reflexivity.
Qed.

Lemma quoted_file_name_is_ascii_witness :
  forallb quoted_char (str "a%20b.txt") = true
  /\ Forall (fun c => 0 <= c < 128) (str "a%20b.txt").
Proof.
  apply (quoted_file_name_is_ascii (str "a b.txt") (str "a%20b.txt")).
  vm_compute; reflexivity.
Defined.

(** ** The random part of the key *)

(** X21. The eight characters taken from the UUID are the hexadecimal text
    of the first four random bytes: 32 random bits, which the version and
    variant bits of the UUID do not touch. *)
Theorem unique_id_is_the_first_four_random_bytes (random : Z) :
  slice_to 8 (uuid_str (uuid4 random))
  = zfill_hex 8 ((random mod 2 ^ 128) / 2 ^ 96).
Proof.
  rewrite unique_id_is_hex_prefix.
  pose proof (zfill_hex_prefix 8 24 (uuid4 random)) as H.
  change (8 + 24)%nat with 32%nat in H.
  change (16 ^ Z.of_nat 24) with (2 ^ 96) in H.
  rewrite H, uuid4_high_bits. reflexivity.
Qed.

(** ** The confirmer *)

Lemma dict_get_set_other {V} (d : dict V) (k k' : pystr) (v : V) :
  k' <> k -> dict_get (dict_set d k v) k' = dict_get d k'.
Proof.
  intros Hne; induction d as [|[k0 v0] d IH]; cbn [dict_set dict_get].
  - rewrite pystr_eqb_neq by congruence. reflexivity.
  - destruct (pystr_eqb k0 k) eqn:E; cbn [dict_get].
    + apply pystr_eqb_eq in E; subst k0.
      rewrite pystr_eqb_neq by congruence. reflexivity.
    + destruct (pystr_eqb k0 k'); [reflexivity | exact IH].
Qed.

(** X22. For an object the store holds, an authenticated /confirm-upload
    is answered 200 with the key as asked, the URL
    [https://<bucket>.s3.amazonaws.com/<key>] (the key is not escaped), the
    bucket, the size, content type and modification time the store returned,
    and the time of the confirmation. *)
Theorem confirmation_reports_the_object
  L w event bucket secret_arn d file_key ho md size type modified :
  routed event "/confirm-upload" "POST" ->
  configured w bucket secret_arn ->
  authenticate_request L w event secret_arn = Ok Authenticated ->
  request_json L event (PDict d) ->
  dict_get d (str "file_key") = Some (PStr file_key) ->
  file_key <> [] ->
  boto3_client w (str "s3") = Ok tt ->
  s3_head_object w bucket file_key = Ok ho ->
  Metadata ho = Some (PDict md) ->
  ContentLength ho = Some size ->
  ContentType ho = Some type ->
  LastModified ho = Some modified ->
  exists payload,
    handler L w event
    = {| statusCode := 200;
         headers := standard_headers;
         body := json_dumps L (PDict payload) |}
    /\ dict_get payload (str "file_key") = Some (PStr file_key)
    /\ dict_get payload (str "s3_url")
       = Some (PStr (str "https://" ++ bucket ++ str ".s3.amazonaws.com/"
                     ++ file_key))
    /\ dict_get payload (str "bucket") = Some (PStr bucket)
    /\ dict_get payload (str "file_size") = Some size
    /\ dict_get payload (str "content_type") = Some type
    /\ dict_get payload (str "last_modified") = Some (PStr (isoformat modified))
    /\ dict_get payload (str "confirmed_at")
       = Some (PStr (isoformat (now w 0))).
Proof.
  intros Hr Hcfg Hauth Hjson Hk Hne Hc Hh Hm Hsz Hty Hlm.
  rewrite (handler_confirm_upload L w event Hr). unfold confirm_upload.
  prelude Hcfg Hauth. parsed Hjson.
  cbn [py_get bind]. rewrite Hk.
  destruct file_key as [|c k]; [contradiction|].
  cbn [truthy negb]. rewrite Hc; cbn [bind]. rewrite Hh; cbn [bind].
  rewrite Hm, Hsz, Hty, Hlm; cbn [py_copy head_getitem bind try_except_Exception].
  eexists; repeat apply conj; reflexivity.
Qed.

Lemma confirmation_reports_the_object_witness :
  exists payload,
    handler sample_lib sample_world
      (sample_event "/confirm-upload" "Authorization" "s3cret"
         (json_object
            [member "file_key" "uploads/20251007_123456_00112233_a b.txt"]))
    = {| statusCode := 200;
         headers := standard_headers;
         body := json_dumps sample_lib (PDict payload) |}
    /\ dict_get payload (str "file_key")
       = Some (PStr (str "uploads/20251007_123456_00112233_a b.txt"))
    /\ dict_get payload (str "s3_url")
       = Some (PStr (str "https://" ++ str "jnuc-uploads"
                     ++ str ".s3.amazonaws.com/"
                     ++ str "uploads/20251007_123456_00112233_a b.txt"))
    /\ dict_get payload (str "bucket") = Some (PStr (str "jnuc-uploads"))
    /\ dict_get payload (str "file_size") = Some (PInt 5)
    /\ dict_get payload (str "content_type") = Some (PStr (str "text/plain"))
    /\ dict_get payload (str "last_modified")
       = Some (PStr (isoformat
            {| year := 2025; month := 10; day := 7;
               hour := 12; minute := 35; second := 2;
               microsecond := 0; tz_minutes := Some 0 |}))
    /\ dict_get payload (str "confirmed_at")
       = Some (PStr (isoformat (now sample_world 0))).
Proof.
  apply (confirmation_reports_the_object sample_lib sample_world
      (sample_event "/confirm-upload" "Authorization" "s3cret"
         (json_object
            [member "file_key" "uploads/20251007_123456_00112233_a b.txt"]))
      (str "jnuc-uploads") (str "arn:aws:secret")
      [(str "file_key", PStr (str "uploads/20251007_123456_00112233_a b.txt"))]
      (str "uploads/20251007_123456_00112233_a b.txt")
      {| Metadata := Some (PDict
           [(str "uploaded-at", PStr (str "2025-10-07T12:34:56.001001"));
            (str "original-filename", PStr (str "a%20b.txt"))]);
         ContentLength := Some (PInt 5);
         ContentType := Some (PStr (str "text/plain"));
         LastModified := Some
           {| year := 2025; month := 10; day := 7;
              hour := 12; minute := 35; second := 2;
              microsecond := 0; tz_minutes := Some 0 |} |}
      [(str "uploaded-at", PStr (str "2025-10-07T12:34:56.001001"));
       (str "original-filename", PStr (str "a%20b.txt"))]).
  - split; vm_compute; reflexivity.
  - repeat apply conj; vm_compute; try reflexivity; discriminate.
  - vm_compute; reflexivity.
  - exists (PStr (json_object
      [member "file_key" "uploads/20251007_123456_00112233_a b.txt"]));
      split; vm_compute; reflexivity.
  - vm_compute; reflexivity.
  - vm_compute; discriminate.
  - vm_compute; reflexivity.
  - vm_compute; reflexivity.
  - reflexivity.
  - reflexivity.
  - reflexivity.
  - reflexivity.
Defined.

(** X23. Confirmation changes nothing in the object's metadata but the
    [original-filename] entry: every other entry is shown as the store
    returned it. *)
Theorem confirmation_keeps_other_metadata
  L w event bucket secret_arn d file_key ho md size type modified :
  routed event "/confirm-upload" "POST" ->
  configured w bucket secret_arn ->
  authenticate_request L w event secret_arn = Ok Authenticated ->
  request_json L event (PDict d) ->
  dict_get d (str "file_key") = Some (PStr file_key) ->
  file_key <> [] ->
  boto3_client w (str "s3") = Ok tt ->
  s3_head_object w bucket file_key = Ok ho ->
  Metadata ho = Some (PDict md) ->
  ContentLength ho = Some size ->
  ContentType ho = Some type ->
  LastModified ho = Some modified ->
  exists payload shown,
    body (handler L w event) = json_dumps L (PDict payload)
    /\ dict_get payload (str "metadata") = Some (PDict shown)
    /\ (forall k, k <> str "original-filename" ->
        dict_get shown k = dict_get md k).
Proof.
  intros Hr Hcfg Hauth Hjson Hk Hne Hc Hh Hm Hsz Hty Hlm.
  destruct (confirm_upload_success L w event bucket secret_arn d file_key ho
              md size type modified Hr Hcfg Hauth Hjson Hk Hne Hc Hh Hm Hsz
              Hty Hlm) as (payload & Hresp & Hmeta).
  rewrite Hresp; cbn [body].
  unfold decode_original_filename in Hmeta.
  destruct (dict_get md (str "original-filename")) as [stored|].
  - destruct (unquote stored) as [decoded|e];
      cbn [bind try_except_Exception] in Hmeta.
    + exists payload, (dict_set md (str "original-filename") (PStr decoded)).
      split; [reflexivity|]. split; [exact Hmeta|].
      intros k Hkne; apply dict_get_set_other; exact Hkne.
    + exists payload, md. split; [reflexivity|]. split; [exact Hmeta|].
      reflexivity.
  - exists payload, md. split; [reflexivity|]. split; [exact Hmeta|].
    reflexivity.
Qed.

Lemma confirmation_keeps_other_metadata_witness :
  exists payload shown,
    body (handler sample_lib sample_world
      (sample_event "/confirm-upload" "Authorization" "s3cret"
         (json_object
            [member "file_key" "uploads/20251007_123456_00112233_a b.txt"])))
    = json_dumps sample_lib (PDict payload)
    /\ dict_get payload (str "metadata") = Some (PDict shown)
    /\ (forall k, k <> str "original-filename" ->
        dict_get shown k
        = dict_get
            [(str "uploaded-at", PStr (str "2025-10-07T12:34:56.001001"));
             (str "original-filename", PStr (str "a%20b.txt"))] k).
Proof.
  apply (confirmation_keeps_other_metadata sample_lib sample_world
      (sample_event "/confirm-upload" "Authorization" "s3cret"
         (json_object
            [member "file_key" "uploads/20251007_123456_00112233_a b.txt"]))
      (str "jnuc-uploads") (str "arn:aws:secret")
      [(str "file_key", PStr (str "uploads/20251007_123456_00112233_a b.txt"))]
      (str "uploads/20251007_123456_00112233_a b.txt")
      {| Metadata := Some (PDict
           [(str "uploaded-at", PStr (str "2025-10-07T12:34:56.001001"));
            (str "original-filename", PStr (str "a%20b.txt"))]);
         ContentLength := Some (PInt 5);
         ContentType := Some (PStr (str "text/plain"));
         LastModified := Some
           {| year := 2025; month := 10; day := 7;
              hour := 12; minute := 35; second := 2;
              microsecond := 0; tz_minutes := Some 0 |} |}
      [(str "uploaded-at", PStr (str "2025-10-07T12:34:56.001001"));
       (str "original-filename", PStr (str "a%20b.txt"))]
      (PInt 5) (PStr (str "text/plain"))
      {| year := 2025; month := 10; day := 7;
         hour := 12; minute := 35; second := 2;
         microsecond := 0; tz_minutes := Some 0 |}).
  - split; vm_compute; reflexivity.
  - repeat apply conj; vm_compute; try reflexivity; discriminate.
  - vm_compute; reflexivity.
  - exists (PStr (json_object
      [member "file_key" "uploads/20251007_123456_00112233_a b.txt"]));
      split; vm_compute; reflexivity.
  - vm_compute; reflexivity.
  - vm_compute; discriminate.
  - vm_compute; reflexivity.
  - vm_compute; reflexivity.
  - reflexivity.
  - reflexivity.
  - reflexivity.
  - reflexivity.
Defined.

(** X24. When [head_object] raises, an authenticated /confirm-upload is
    answered 404 "File not found in S3" if the exception is a [NoSuchKey] and
    500 "Failed to confirm upload" for any other exception (access denied,
    throttling, a plain client error). *)
Theorem head_object_failure_is_404_or_500
  L w event bucket secret_arn d file_key e :
  routed event "/confirm-upload" "POST" ->
  configured w bucket secret_arn ->
  authenticate_request L w event secret_arn = Ok Authenticated ->
  request_json L event (PDict d) ->
  dict_get d (str "file_key") = Some (PStr file_key) ->
  file_key <> [] ->
  boto3_client w (str "s3") = Ok tt ->
  s3_head_object w bucket file_key = Raise e ->
  (exn_cls e = NoSuchKey ->
   handler L w event = error_response L 404 "File not found in S3")
  /\ (exn_cls e <> NoSuchKey ->
      handler L w event = error_response L 500 "Failed to confirm upload").
Proof.
  intros Hr Hcfg Hauth Hjson Hk Hne Hc Hh.
  rewrite (handler_confirm_upload L w event Hr). unfold confirm_upload.
  prelude Hcfg Hauth. parsed Hjson.
  cbn [py_get bind]. rewrite Hk.
  destruct file_key as [|c k]; [contradiction|].
  cbn [truthy negb]. rewrite Hc; cbn [bind]. rewrite Hh; cbn [bind].
  unfold is_class. split; intros He.
  - rewrite He; reflexivity.
  - destruct (exn_cls e); try reflexivity. contradiction.
Qed.

Lemma head_object_failure_is_404_or_500_witness :
  handler sample_lib
    (with_head_object sample_world (fun _ _ =>
       Raise {| exn_cls := NoSuchKey;
                exn_text := str "The specified key does not exist." |}))
    (sample_event "/confirm-upload" "Authorization" "s3cret"
       (json_object [member "file_key" "uploads/missing.bin"]))
  = error_response sample_lib 404 "File not found in S3"
  /\ handler sample_lib
       (with_head_object sample_world (fun _ _ =>
          Raise {| exn_cls := ClientError;
                   exn_text := str "An error occurred (403): Forbidden" |}))
       (sample_event "/confirm-upload" "Authorization" "s3cret"
          (json_object [member "file_key" "uploads/missing.bin"]))
     = error_response sample_lib 500 "Failed to confirm upload".
Proof.
  split.
  - apply (proj1 (head_object_failure_is_404_or_500 sample_lib
             (with_head_object sample_world (fun _ _ =>
                Raise {| exn_cls := NoSuchKey;
                         exn_text := str "The specified key does not exist." |}))
             (sample_event "/confirm-upload" "Authorization" "s3cret"
                (json_object [member "file_key" "uploads/missing.bin"]))
             (str "jnuc-uploads") (str "arn:aws:secret")
             [(str "file_key", PStr (str "uploads/missing.bin"))]
             (str "uploads/missing.bin")
             {| exn_cls := NoSuchKey;
                exn_text := str "The specified key does not exist." |}
             ltac:(split; vm_compute; reflexivity)
             ltac:(repeat apply conj; vm_compute; try reflexivity; discriminate)
             ltac:(vm_compute; reflexivity)
             ltac:(exists (PStr (json_object
                              [member "file_key" "uploads/missing.bin"]));
                   split; vm_compute; reflexivity)
             ltac:(vm_compute; reflexivity)
             ltac:(vm_compute; discriminate)
             ltac:(vm_compute; reflexivity)
             ltac:(vm_compute; reflexivity))).
    reflexivity.
  - apply (proj2 (head_object_failure_is_404_or_500 sample_lib
             (with_head_object sample_world (fun _ _ =>
                Raise {| exn_cls := ClientError;
                         exn_text := str "An error occurred (403): Forbidden" |}))
             (sample_event "/confirm-upload" "Authorization" "s3cret"
                (json_object [member "file_key" "uploads/missing.bin"]))
             (str "jnuc-uploads") (str "arn:aws:secret")
             [(str "file_key", PStr (str "uploads/missing.bin"))]
             (str "uploads/missing.bin")
             {| exn_cls := ClientError;
                exn_text := str "An error occurred (403): Forbidden" |}
             ltac:(split; vm_compute; reflexivity)
             ltac:(repeat apply conj; vm_compute; try reflexivity; discriminate)
             ltac:(vm_compute; reflexivity)
             ltac:(exists (PStr (json_object
                              [member "file_key" "uploads/missing.bin"]));
                   split; vm_compute; reflexivity)
             ltac:(vm_compute; reflexivity)
             ltac:(vm_compute; discriminate)
             ltac:(vm_compute; reflexivity)
             ltac:(vm_compute; reflexivity))).
    vm_compute; discriminate.
Defined.
